(** * networking-sfc: the [sfc] API extension

    A shallow embedding of [networking_sfc/extensions/sfc.py]: the
    validator registered by the module, its exception classes, the
    attribute converters ([normalize_*]), the resource attribute map and
    the abstract plugin interface, followed by the properties the
    specification states about them.

    The module is Python, so request data is dynamically typed.  Values
    are the ones a JSON request body decodes to (floating point numbers
    are left out), and a Python call either returns or raises. *)

From Stdlib Require Import ZArith List String Ascii Bool Lia.
Import ListNotations.

Local Open Scope string_scope.
Local Open Scope Z_scope.

Set Warnings "-register-all".

(* ================================================================== *)
(** * Python values *)
(* ================================================================== *)

Module Py.

(** A decoded JSON value.  A [dict] keeps its items in insertion order,
    as Python does; the keys of a decoded JSON object are strings. *)
Inductive pyval : Type :=
| PyNone
| PyBool (b : bool)
| PyInt (z : Z)
| PyStr (s : string)
| PyList (l : list pyval)
| PyDict (d : list (string * pyval)).

(** Built-in exceptions a call can raise, and the exceptions of the
    extension module, which the type parameter [E] stands for. *)
Inductive exn (E : Type) : Type :=
| TypeError
| Exc (e : E).
Arguments TypeError {E}.
Arguments Exc {E} e.

(** The outcome of a call: a returned value or a raised exception. *)
Inductive result (E A : Type) : Type :=
| Return (a : A)
| Raise (e : exn E).
Arguments Return {E A} a.
Arguments Raise {E A} e.

Definition bind {E A B} (m : result E A) (k : A -> result E B) : result E B :=
  match m with
  | Return a => k a
  | Raise e => Raise e
  end.

Notation "x <- m ;; k" := (bind m (fun x => k))
  (at level 61, m at next level, right associativity).

Definition raises {E A} (m : result E A) : bool :=
  match m with Return _ => false | Raise _ => true end.

(** [bool(v)]: the truth value of an object. *)
Definition truthy (v : pyval) : bool :=
  match v with
  | PyNone => false
  | PyBool b => b
  | PyInt z => negb (z =? 0)
  | PyStr s => negb (s =? "")%string
  | PyList l => match l with [] => false | _ :: _ => true end
  | PyDict d => match d with [] => false | _ :: _ => true end
  end.

(** [isinstance(v, list)] and [isinstance(v, str)]. *)
Definition is_list (v : pyval) : bool :=
  match v with PyList _ => true | _ => false end.

Definition is_str (v : pyval) : bool :=
  match v with PyStr _ => true | _ => false end.

(** Lists and dicts are unhashable: they cannot be members of a set. *)
Definition hashable (v : pyval) : bool :=
  match v with
  | PyList _ | PyDict _ => false
  | _ => true
  end.

(** Dict items: first binding of a key, membership, item assignment. *)
Fixpoint dict_get {A} (k : string) (d : list (string * A)) : option A :=
  match d with
  | [] => None
  | (k', v) :: d' => if (k' =? k)%string then Some v else dict_get k d'
  end.

Definition dict_mem {A} (k : string) (d : list (string * A)) : bool :=
  match dict_get k d with Some _ => true | None => false end.

Fixpoint dict_set {A} (k : string) (v : A) (d : list (string * A))
  : list (string * A) :=
  match d with
  | [] => [(k, v)]
  | (k', v') :: d' =>
      if (k' =? k)%string then (k, v) :: d' else (k', v') :: dict_set k v d'
  end.

(** [a == b].  [True == 1], and two dicts are equal when they have the
    same keys with equal values, whatever the order. *)
Fixpoint eqb (a b : pyval) {struct a} : bool :=
  match a, b with
  | PyNone, PyNone => true
  | PyBool x, PyBool y => Bool.eqb x y
  | PyBool x, PyInt y => (if x then 1 else 0) =? y
  | PyInt x, PyBool y => x =? (if y then 1 else 0)
  | PyInt x, PyInt y => x =? y
  | PyStr x, PyStr y => (x =? y)%string
  | PyList x, PyList y =>
      (fix eqb_list (x y : list pyval) {struct x} : bool :=
         match x, y with
         | [], [] => true
         | u :: x', v :: y' => eqb u v && eqb_list x' y'
         | _, _ => false
         end) x y
  | PyDict x, PyDict y =>
      (List.length x =? List.length y)%nat &&
      (fix eqb_items (x : list (string * pyval)) {struct x} : bool :=
         match x with
         | [] => true
         | (k, u) :: x' =>
             match dict_get k y with
             | Some v => eqb u v && eqb_items x'
             | None => false
             end
         end) x
  | _, _ => false
  end.

(** [v in l] for a list [l]: some element equals [v]. *)
Definition in_list (v : pyval) (l : list pyval) : bool :=
  existsb (fun u => eqb v u) l.

(** [set(l)]: members must be hashable; equal members are kept once.
    The iteration order of a Python set is unspecified; the model lists
    the members in order of first insertion. *)
Fixpoint dedup (l : list pyval) (seen : list pyval) : list pyval :=
  match l with
  | [] => []
  | v :: l' => if in_list v seen then dedup l' seen
               else v :: dedup l' (v :: seen)
  end.

Definition set_of {E} (l : list pyval) : result E (list pyval) :=
  if forallb hashable l then Return (dedup l []) else Raise TypeError.

(** [a - b] on sets. *)
Definition set_diff (a b : list pyval) : list pyval :=
  filter (fun v => negb (in_list v b)) a.

(** [sep.join(items)]: every item must be a [str]. *)
Fixpoint strings_of (items : list pyval) : option (list string) :=
  match items with
  | [] => Some []
  | PyStr s :: items' =>
      match strings_of items' with
      | Some ss => Some (s :: ss)
      | None => None
      end
  | _ :: _ => None
  end.

Definition join {E} (sep : string) (items : list pyval) : result E string :=
  match strings_of items with
  | Some ss => Return (String.concat sep ss)
  | None => Raise TypeError
  end.

(** [k in c] for a string [k]: key membership for a dict, element
    membership for a list, substring test for a string; other objects
    are not containers. *)
Definition contains {E} (c : pyval) (k : string) : result E bool :=
  match c with
  | PyDict d => Return (dict_mem k d)
  | PyList l => Return (in_list (PyStr k) l)
  | PyStr s => Return (match String.index 0 k s with
                       | Some _ => true | None => false end)
  | _ => Raise TypeError
  end.

(** [c[k] = v] for a string [k]: only a dict supports it. *)
Definition setitem {E} (c : pyval) (k : string) (v : pyval) : result E pyval :=
  match c with
  | PyDict d => Return (PyDict (dict_set k v d))
  | _ => Raise TypeError
  end.

End Py.

Import Py.

(* ================================================================== *)
(** * The host library ([neutron_lib]) *)
(* ================================================================== *)

Module Host.

(** A message: a template and the values substituted into it.  The
    translation marker [_] is the identity in the default locale. *)
Record message : Type := Msg { template : string; arguments : list pyval }.

(** The exception classes of [neutron_lib.exceptions] the extension
    derives its own from. *)
Inductive host_error : Type := NotFound | InUse | InvalidInput.

(** The field sizes of [neutron_lib.db.constants] the schema refers to;
    their numeric values are not part of the sources. *)
Inductive field_size : Type :=
| NAME_FIELD_SIZE | DESCRIPTION_FIELD_SIZE | PROJECT_ID_FIELD_SIZE.

(** Modelled from the spec: [lib_converters.convert_to_list] belongs to
    the host library (neutron_lib.api.converters) and is not among the
    sources.  Its contract: [None] gives the empty list, an iterable that
    is not a string gives [list(data)] (for a dict, its keys), and any
    other value is wrapped into a one-element list. *)
Definition convert_to_list (data : pyval) : list pyval :=
  match data with
  | PyNone => []
  | PyList l => l
  | PyDict d => map (fun kv => PyStr (fst kv)) d
  | _ => [data]
  end.

(** Modelled from the spec: [lib_converters.convert_none_to_empty_list],
    also of the host library: [None] gives [[]], other values are
    returned as they are. *)
Definition convert_none_to_empty_list (data : pyval) : pyval :=
  match data with
  | PyNone => PyList []
  | _ => data
  end.

(** Modelled from the spec: the host library's ['type:values']
    validator, a membership test of the data in the allowed values. *)
Definition validate_values (data : pyval) (valid_values : list pyval)
  : option message :=
  if in_list data valid_values then None
  else Some (Msg "'%(data)s' is not in %(valid_values)s"
                 [data; PyList valid_values]).

(** Modelled from the spec: the host library's ['type:range'] validator,
    an inclusive range test on an integer. *)
Definition validate_range (data : Z) (valid_values : Z * Z) : option message :=
  let (min_value, max_value) := valid_values in
  if data <? min_value then
    Some (Msg "'%(data)s' is too small - must be at least '%(limit)d'"
              [PyInt data; PyInt min_value])
  else if data >? max_value then
    Some (Msg "'%(data)s' is too large - must be no larger than '%(limit)d'"
              [PyInt data; PyInt max_value])
  else None.

End Host.

Import Host.

(* ================================================================== *)
(** * The extension module [networking_sfc.extensions.sfc] *)
(* ================================================================== *)

Module Sfc.

Definition SFC_EXT : string := "sfc".
Definition SFC_PREFIX : string := "/sfc".

Definition DEFAULT_CHAIN_CORRELATION : pyval := PyStr "mpls".
Definition DEFAULT_CHAIN_SYMMETRY : pyval := PyBool false.
Definition DEFAULT_CHAIN_PARAMETERS : pyval :=
  PyDict [("correlation", DEFAULT_CHAIN_CORRELATION);
          ("symmetric", DEFAULT_CHAIN_SYMMETRY)].
Definition DEFAULT_SF_PARAMETERS : pyval :=
  PyDict [("correlation", PyNone); ("weight", PyInt 1)].
Definition DEFAULT_PPG_PARAMETERS : pyval :=
  PyDict [("lb_fields", PyList [])].
Definition SUPPORTED_LB_FIELDS : list pyval :=
  [PyStr "eth_src"; PyStr "eth_dst"; PyStr "ip_src"; PyStr "ip_dst";
   PyStr "tcp_src"; PyStr "tcp_dst"; PyStr "udp_src"; PyStr "udp_dst"].
Definition MAX_CHAIN_ID : Z := 65535.

(** ** Exceptions *)

Inductive sfc_exception : Type :=
| PortChainNotFound
| PortChainUnavailableChainId
| PortChainFlowClassifierInConflict
| PortChainChainIdInConflict
| PortPairGroupNotSpecified
| InvalidPortPairGroups
| PortPairPortNotFound
| PortPairIngressEgressDifferentHost
| PortPairIngressNoHost
| PortPairEgressNoHost
| PortPairIngressEgressInUse
| PortPairNotFound
| PortPairGroupNotFound
| PortPairGroupInUse
| PortPairInUse.

(** The classes in the order the module declares them. *)
Definition exceptions : list sfc_exception :=
  [PortChainNotFound; PortChainUnavailableChainId;
   PortChainFlowClassifierInConflict; PortChainChainIdInConflict;
   PortPairGroupNotSpecified; InvalidPortPairGroups; PortPairPortNotFound;
   PortPairIngressEgressDifferentHost; PortPairIngressNoHost;
   PortPairEgressNoHost; PortPairIngressEgressInUse; PortPairNotFound;
   PortPairGroupNotFound; PortPairGroupInUse; PortPairInUse].

Definition class_name (e : sfc_exception) : string :=
  match e with
  | PortChainNotFound => "PortChainNotFound"
  | PortChainUnavailableChainId => "PortChainUnavailableChainId"
  | PortChainFlowClassifierInConflict => "PortChainFlowClassifierInConflict"
  | PortChainChainIdInConflict => "PortChainChainIdInConflict"
  | PortPairGroupNotSpecified => "PortPairGroupNotSpecified"
  | InvalidPortPairGroups => "InvalidPortPairGroups"
  | PortPairPortNotFound => "PortPairPortNotFound"
  | PortPairIngressEgressDifferentHost => "PortPairIngressEgressDifferentHost"
  | PortPairIngressNoHost => "PortPairIngressNoHost"
  | PortPairEgressNoHost => "PortPairEgressNoHost"
  | PortPairIngressEgressInUse => "PortPairIngressEgressInUse"
  | PortPairNotFound => "PortPairNotFound"
  | PortPairGroupNotFound => "PortPairGroupNotFound"
  | PortPairGroupInUse => "PortPairGroupInUse"
  | PortPairInUse => "PortPairInUse"
  end.

(** The base class of each exception class. *)
Definition base (e : sfc_exception) : host_error :=
  match e with
  | PortChainNotFound => NotFound
  | PortChainUnavailableChainId => InvalidInput
  | PortChainFlowClassifierInConflict => InvalidInput
  | PortChainChainIdInConflict => InvalidInput
  | PortPairGroupNotSpecified => InvalidInput
  | InvalidPortPairGroups => InUse
  | PortPairPortNotFound => NotFound
  | PortPairIngressEgressDifferentHost => InvalidInput
  | PortPairIngressNoHost => InvalidInput
  | PortPairEgressNoHost => InvalidInput
  | PortPairIngressEgressInUse => InvalidInput
  | PortPairNotFound => NotFound
  | PortPairGroupNotFound => NotFound
  | PortPairGroupInUse => InUse
  | PortPairInUse => InUse
  end.

(** The [message] attribute of each class (adjacent string literals are
    concatenated as Python does, without a separating space). *)
Definition message_of (e : sfc_exception) : string :=
  match e with
  | PortChainNotFound => "Port Chain %(id)s not found."
  | PortChainUnavailableChainId => "Port Chain %(id)s no available chain id."
  | PortChainFlowClassifierInConflict =>
      "Flow Classifier %(fc_id)s conflicts with " ++
      "Flow Classifier %(pc_fc_id)s in port chain %(pc_id)s."
  | PortChainChainIdInConflict =>
      "Chain id %(chain_id)s conflicts with " ++
      "Chain id in port chain %(pc_id)s."
  | PortPairGroupNotSpecified =>
      "Port Pair Group is not specified in Port Chain."
  | InvalidPortPairGroups =>
      "Port Pair Group(s) %(port_pair_groups)s in use by " ++
      "Port Chain %(port_chain)s."
  | PortPairPortNotFound => "Port Pair port %(id)s not found."
  | PortPairIngressEgressDifferentHost =>
      "Port Pair ingress port %(ingress)s and" ++
      "egress port %(egress)s not in the same host."
  | PortPairIngressNoHost =>
      "Port Pair ingress port %(ingress)s does not " ++
      "belong to a host."
  | PortPairEgressNoHost =>
      "Port Pair egress port %(egress)s does not " ++
      "belong to a host."
  | PortPairIngressEgressInUse =>
      "Port Pair with ingress port %(ingress)s " ++
      "and egress port %(egress)s is already used by " ++
      "another Port Pair %(id)s."
  | PortPairNotFound => "Port Pair %(id)s not found."
  | PortPairGroupNotFound => "Port Pair Group %(id)s not found."
  | PortPairGroupInUse => "Port Pair Group %(id)s in use."
  | PortPairInUse => "Port Pair %(id)s in use."
  end.

(** The three resource kinds of the extension, and the kind an exception
    class is about: the resource its class name names.  [PortPairGroup]
    is looked for before [PortPair], which is a prefix of it. *)
Inductive resource_kind : Type := PortPair | PortPairGroup | PortChain.

Definition occurs (sub s : string) : bool :=
  match String.index 0 sub s with Some _ => true | None => false end.

Definition kind_of (e : sfc_exception) : option resource_kind :=
  let n := class_name e in
  if occurs "PortPairGroup" n then Some PortPairGroup
  else if occurs "PortPair" n then Some PortPair
  else if occurs "PortChain" n then Some PortChain
  else None.

Definition host_error_eqb (a b : host_error) : bool :=
  match a, b with
  | NotFound, NotFound | InUse, InUse | InvalidInput, InvalidInput => true
  | _, _ => false
  end.

Definition resource_kind_eqb (a b : resource_kind) : bool :=
  match a, b with
  | PortPair, PortPair | PortPairGroup, PortPairGroup
  | PortChain, PortChain => true
  | _, _ => false
  end.

(** The classes about resource kind [k] that derive from [b]. *)
Definition conditions_of (k : resource_kind) (b : host_error)
  : list sfc_exception :=
  filter (fun e =>
            match kind_of e with
            | Some k' => resource_kind_eqb k' k && host_error_eqb (base e) b
            | None => false
            end) exceptions.

(** What a call of this module can raise besides [TypeError]: an
    exception of the host library or one of the module's own. *)
Inductive raised : Type :=
| Lib (c : host_error)
| Ext (c : sfc_exception).

Definition res (A : Type) : Type := result raised A.

(** ** The registered validator *)

(** [validate_list_of_allowed_values(data, allowed_values)] returns
    [None] when the data is acceptable and a message when it is not. *)
Definition validate_list_of_allowed_values
    (data : pyval) (allowed_values : list pyval) : res (option message) :=
  match data with
  | PyList l =>
      data_set <- set_of l ;;
      allowed_set <- set_of allowed_values ;;
      let illegal_values := set_diff data_set allowed_set in
      match illegal_values with
      | [] => Return None
      | _ :: _ =>
          joined <- join ", " illegal_values ;;
          Return (Some (Msg "Illegal values in a list: %s" [PyStr joined]))
      end
  | _ => Return (Some (Msg "'%s' is not a list" [data]))
  end.

(** ** Converters *)

Definition normalize_port_pair_groups (port_pair_groups : pyval)
  : res (list pyval) :=
  let port_pair_groups := convert_to_list port_pair_groups in
  match port_pair_groups with
  | [] => Raise (Exc (Ext PortPairGroupNotSpecified))
  | _ :: _ => Return port_pair_groups
  end.

(** The function updates its argument in place and returns it: the
    returned value is also the new state of the caller's object. *)
Definition normalize_chain_parameters (parameters : pyval) : res pyval :=
  if negb (truthy parameters) then Return DEFAULT_CHAIN_PARAMETERS
  else
    present <- contains parameters "correlation" ;;
    parameters <- (if negb present
                   then setitem parameters "correlation"
                                DEFAULT_CHAIN_CORRELATION
                   else Return parameters) ;;
    present <- contains parameters "symmetric" ;;
    parameters <- (if negb present
                   then setitem parameters "symmetric" DEFAULT_CHAIN_SYMMETRY
                   else Return parameters) ;;
    Return parameters.

(** The two functions below return their argument or the module-level
    default object itself. *)
Definition normalize_sf_parameters (parameters : pyval) : pyval :=
  if truthy parameters then parameters else DEFAULT_SF_PARAMETERS.

Definition normalize_ppg_parameters (parameters : pyval) : pyval :=
  if truthy parameters then parameters else DEFAULT_PPG_PARAMETERS.

(** ** The resource attribute map *)

(** [d[k]] for one of the constant dicts above, where the key exists. *)
Definition item (d : pyval) (k : string) : pyval :=
  match d with
  | PyDict items =>
      match dict_get k items with Some v => v | None => PyNone end
  | _ => PyNone
  end.

(** The functions the schema refers to under ['convert_to']. *)
Inductive func : Type :=
| lib_convert_to_int
| lib_convert_to_boolean
| lib_convert_to_list
| lib_convert_none_to_empty_list
| fn_normalize_port_pair_groups
| fn_normalize_chain_parameters
| fn_normalize_sf_parameters
| fn_normalize_ppg_parameters.

(** The specification of one key of a ['type:dict'] rule: its default,
    its ['type:...'] entry, if any, and its converter, if any. *)
Record key_spec (R : Type) : Type := KeySpec {
  ks_default : pyval;
  ks_rule : option R;
  ks_convert_to : option func
}.
Arguments KeySpec {R} ks_default ks_rule ks_convert_to.
Arguments ks_default {R} k.
Arguments ks_rule {R} k.
Arguments ks_convert_to {R} k.

(** A ['type:...'] entry with its parameter. *)
Inductive rule : Type :=
| type_uuid
| type_string (size : field_size)
| type_uuid_list
| type_range (valid_values : Z * Z)
| type_non_negative
| type_values (valid_values : list pyval)
| type_list_of_allowed_values (allowed_values : list pyval)
| type_dict (key_specs : list (string * key_spec rule)).

(** The description of one attribute.  [default] and [validate] are
    [None] when the key is absent from the description, the two flags at
    the end are [false] when theirs is. *)
Record attribute : Type := Attr {
  allow_post : bool;
  allow_put : bool;
  is_visible : bool;
  default : option pyval;
  validate : option rule;
  convert_to : option func;
  primary_key : bool;
  required_by_policy : bool
}.

Definition attr_id : attribute :=
  Attr false false true None (Some type_uuid) None true false.

Definition attr_name : attribute :=
  Attr true true true (Some (PyStr ""))
       (Some (type_string NAME_FIELD_SIZE)) None false false.

Definition attr_description : attribute :=
  Attr true true true (Some (PyStr ""))
       (Some (type_string DESCRIPTION_FIELD_SIZE)) None false false.

Definition attr_tenant_id : attribute :=
  Attr true false true None
       (Some (type_string PROJECT_ID_FIELD_SIZE)) None false true.

Definition RESOURCE_ATTRIBUTE_MAP : list (string * list (string * attribute)) :=
  [("port_pairs",
    [("id", attr_id);
     ("name", attr_name);
     ("description", attr_description);
     ("tenant_id", attr_tenant_id);
     ("ingress", Attr true false true None (Some type_uuid) None false false);
     ("egress", Attr true false true None (Some type_uuid) None false false);
     ("service_function_parameters",
      Attr true false true (Some PyNone)
           (Some (type_dict
              [("correlation",
                KeySpec (item DEFAULT_SF_PARAMETERS "correlation")
                        (Some (type_values [PyNone])) None);
               ("weight",
                KeySpec (item DEFAULT_SF_PARAMETERS "weight")
                        (Some type_non_negative)
                        (Some lib_convert_to_int))]))
           (Some fn_normalize_sf_parameters) false false)]);
   ("port_chains",
    [("id", attr_id);
     ("chain_id",
      Attr true false true (Some (PyInt 0))
           (Some (type_range (0, MAX_CHAIN_ID)))
           (Some lib_convert_to_int) false false);
     ("name", attr_name);
     ("description", attr_description);
     ("tenant_id", attr_tenant_id);
     ("port_pair_groups",
      Attr true true true None (Some type_uuid_list)
           (Some fn_normalize_port_pair_groups) false false);
     ("flow_classifiers",
      Attr true true true (Some PyNone) (Some type_uuid_list)
           (Some lib_convert_to_list) false false);
     ("chain_parameters",
      Attr true false true (Some PyNone)
           (Some (type_dict
              [("correlation",
                KeySpec (item DEFAULT_CHAIN_PARAMETERS "correlation")
                        (Some (type_values [PyStr "mpls"])) None);
               ("symmetric",
                KeySpec (item DEFAULT_CHAIN_PARAMETERS "symmetric")
                        None (Some lib_convert_to_boolean))]))
           (Some fn_normalize_chain_parameters) false false)]);
   ("port_pair_groups",
    [("id", attr_id);
     ("group_id", Attr false false true None None None false false);
     ("name", attr_name);
     ("description", attr_description);
     ("tenant_id", attr_tenant_id);
     ("port_pairs",
      Attr true true true (Some PyNone) (Some type_uuid_list)
           (Some lib_convert_none_to_empty_list) false false);
     ("port_pair_group_parameters",
      Attr true false true (Some PyNone)
           (Some (type_dict
              [("lb_fields",
                KeySpec (item DEFAULT_PPG_PARAMETERS "lb_fields")
                        (Some (type_list_of_allowed_values SUPPORTED_LB_FIELDS))
                        None)]))
           (Some fn_normalize_ppg_parameters) false false)])].

(** The description of attribute [a] of resource collection [r]. *)
Definition attribute_of (r a : string) : option attribute :=
  match dict_get r RESOURCE_ATTRIBUTE_MAP with
  | Some attrs => dict_get a attrs
  | None => None
  end.

(** The specification of key [k] in the ['type:dict'] rule of an
    attribute. *)
Definition key_spec_of (r a k : string) : option (key_spec rule) :=
  match attribute_of r a with
  | Some {| validate := Some (type_dict key_specs) |} => dict_get k key_specs
  | _ => None
  end.

(** ** The plugin interface *)

(** A method of a class: its name, its parameters after [self], and
    whether it is decorated with [abstractmethod]. *)
Record method : Type := Method {
  method_name : string;
  parameters : list string;
  abstract : bool
}.

Definition list_parameters : list string :=
  ["context"; "filters"; "fields"; "sorts"; "limit"; "marker";
   "page_reverse"].

Definition SfcPluginBase : list method :=
  [Method "get_plugin_name" [] false;
   Method "get_plugin_type" [] false;
   Method "get_plugin_description" [] false;
   Method "create_port_chain" ["context"; "port_chain"] true;
   Method "update_port_chain" ["context"; "id"; "port_chain"] true;
   Method "delete_port_chain" ["context"; "id"] true;
   Method "get_port_chains" list_parameters true;
   Method "get_port_chain" ["context"; "id"; "fields"] true;
   Method "create_port_pair_group" ["context"; "port_pair_group"] true;
   Method "update_port_pair_group" ["context"; "id"; "port_pair_group"] true;
   Method "delete_port_pair_group" ["context"; "id"] true;
   Method "get_port_pair_groups" list_parameters true;
   Method "get_port_pair_group" ["context"; "id"; "fields"] true;
   Method "create_port_pair" ["context"; "port_pair"] true;
   Method "update_port_pair" ["context"; "id"; "port_pair"] true;
   Method "delete_port_pair" ["context"; "id"] true;
   Method "get_port_pairs" list_parameters true;
   Method "get_port_pair" ["context"; "id"; "fields"] true].

(** The names of the operations a plugin has to implement. *)
Definition abstract_methods : list string :=
  map method_name (filter abstract SfcPluginBase).

(** The create, update, delete, list and get operations of a resource
    kind, named after the kind. *)
Definition singular (k : resource_kind) : string :=
  match k with
  | PortPair => "port_pair"
  | PortPairGroup => "port_pair_group"
  | PortChain => "port_chain"
  end.

Definition operations_of (k : resource_kind) : list string :=
  let s := singular k in
  ["create_" ++ s; "update_" ++ s; "delete_" ++ s;
   "get_" ++ s ++ "s"; "get_" ++ s].

End Sfc.

Import Sfc.

(* ================================================================== *)
(** * Validation of a request attribute by the host *)
(* ================================================================== *)

Module Api.

(** The functions of the host library the schema refers to and this
    development leaves open: the two scalar converters, the integer
    reading of a string, and the validators of identifiers, strings and
    non-negative numbers. *)
Class HostLib : Type := {
  convert_to_int : pyval -> res pyval;
  convert_to_boolean : pyval -> res pyval;
  int_of_string : string -> option Z;
  validate_uuid : pyval -> option message;
  validate_uuid_list : pyval -> option message;
  validate_string : field_size -> pyval -> option message;
  validate_non_negative : pyval -> option message
}.

Section WithHostLib.

Context {host : HostLib}.

(** [int(data)], where it is defined. *)
Definition int_of (data : pyval) : option Z :=
  match data with
  | PyInt z => Some z
  | PyBool b => Some (if b then 1 else 0)
  | PyStr s => int_of_string s
  | _ => None
  end.

(** Calling a function the schema names under ['convert_to']. *)
Definition call (f : func) (data : pyval) : res pyval :=
  match f with
  | lib_convert_to_int => convert_to_int data
  | lib_convert_to_boolean => convert_to_boolean data
  | lib_convert_to_list => Return (PyList (convert_to_list data))
  | lib_convert_none_to_empty_list => Return (convert_none_to_empty_list data)
  | fn_normalize_port_pair_groups =>
      l <- normalize_port_pair_groups data ;; Return (PyList l)
  | fn_normalize_chain_parameters => normalize_chain_parameters data
  | fn_normalize_sf_parameters => Return (normalize_sf_parameters data)
  | fn_normalize_ppg_parameters => Return (normalize_ppg_parameters data)
  end.

Definition convert (f : option func) (data : pyval) : res pyval :=
  match f with
  | Some f => call f data
  | None => Return data
  end.

(** Modelled from the spec: the validators registry of the host library,
    to which the module adds ['type:list_of_allowed_values'], and the
    library's ['type:dict'] validator.  The latter goes through the key
    specifications in order; for each key present in the data it applies
    the key's converter, stores the result under the key, runs the key's
    ['type:...'] entry on it and stops at the first message. *)
Fixpoint run_rule (r : rule) (data : pyval) {struct r} : res (option message) :=
  match r with
  | type_uuid => Return (validate_uuid data)
  | type_string size => Return (validate_string size data)
  | type_uuid_list => Return (validate_uuid_list data)
  | type_range valid_values =>
      match int_of data with
      | Some z => Return (validate_range z valid_values)
      | None => Return (Some (Msg "'%s' is not an integer" [data]))
      end
  | type_non_negative => Return (validate_non_negative data)
  | type_values valid_values => Return (validate_values data valid_values)
  | type_list_of_allowed_values allowed_values =>
      validate_list_of_allowed_values data allowed_values
  | type_dict key_specs =>
      match data with
      | PyDict d =>
          (fix validate_keys (specs : list (string * key_spec rule))
                             (d : list (string * pyval)) {struct specs}
             : res (option message) :=
             match specs with
             | [] => Return None
             | (key, spec) :: specs' =>
                 match dict_get key d with
                 | None => validate_keys specs' d
                 | Some v =>
                     v' <- convert (ks_convert_to spec) v ;;
                     m <- match ks_rule spec with
                          | Some r' => run_rule r' v'
                          | None => Return None
                          end ;;
                     match m with
                     | Some msg => Return (Some msg)
                     | None => validate_keys specs' (dict_set key v' d)
                     end
                 end
             end) key_specs d
      | _ => Return (Some (Msg "'%s' is not a dictionary" [data]))
      end
  end.

(** Modelled from the spec: the host prepares a request attribute by
    applying its ['convert_to'] function and then its ['validate'] rule
    to the converted value. *)
Definition check_attribute (a : attribute) (data : pyval)
  : res (option message) :=
  data' <- convert (convert_to a) data ;;
  match validate a with
  | Some r => run_rule r data'
  | None => Return None
  end.

(** A request value is accepted when the check returns no message, and
    rejected when it returns one or raises. *)
Definition accepted (r : res (option message)) : bool :=
  match r with Return None => true | _ => false end.


End WithHostLib.

(** An instance on which examples can be evaluated: its converters
    return their argument and its validators accept everything.  It
    stands for no particular version of the library; no statement below
    depends on it. *)
Definition plain_host : HostLib := {|
  convert_to_int := fun data => Return data;
  convert_to_boolean := fun data => Return data;
  int_of_string := fun _ => None;
  validate_uuid := fun _ => None;
  validate_uuid_list := fun _ => None;
  validate_string := fun _ _ => None;
  validate_non_negative := fun _ => None
|}.

End Api.

Import Api.

(* ================================================================== *)
(** * The quota options, the extension descriptor, the plugin base *)
(* ================================================================== *)

Module Extension.

(** An integer option of the configuration ([cfg.IntOpt]). *)
Record IntOpt : Type := {
  opt_name : string;
  opt_default : Z;
  opt_help : string
}.

Definition sfc_quota_opts : list IntOpt :=
  [{| opt_name := "quota_port_chain";
      opt_default := 10;
      opt_help := "Maximum number of port chains per tenant. " ++
                  "A negative value means unlimited." |};
   {| opt_name := "quota_port_pair_group";
      opt_default := 10;
      opt_help := "maximum number of port pair group per tenant. " ++
                  "a negative value means unlimited." |};
   {| opt_name := "quota_port_pair";
      opt_default := 100;
      opt_help := "maximum number of port pair per tenant. " ++
                  "a negative value means unlimited." |}].

(** The class methods of the descriptor class [Sfc]. *)
Definition get_name : string := "Service Function Chaining".
Definition get_alias : string := SFC_EXT.
Definition get_description : string := "Service Function Chain extension.".
Definition get_plugin_interface : list method := SfcPluginBase.
Definition get_updated : string := "2015-10-05T10:00:00-00:00".

(** [get_extended_resources(version)]: the attribute map for version
    ["2.0"], the empty dict otherwise. *)
Definition get_extended_resources (version : pyval)
  : list (string * list (string * attribute)) :=
  if Py.eqb version (PyStr "2.0") then RESOURCE_ATTRIBUTE_MAP else [].

(** The methods [SfcPluginBase] implements itself. *)
Definition get_plugin_name : string := SFC_EXT.
Definition get_plugin_type : string := SFC_EXT.
Definition get_plugin_description : string :=
  "SFC service plugin for service chaining.".

End Extension.

Import Extension.

(* ================================================================== *)
(** * Notions used in the statements *)
(* ================================================================== *)

(** What decides the equality of two hashable values: [None], the
    number a boolean or an integer stands for, or the string. *)
Inductive hkey : Type :=
| KNone
| KNum (z : Z)
| KStr (s : string).

Definition key_of (v : pyval) : option hkey :=
  match v with
  | PyNone => Some KNone
  | PyBool b => Some (KNum (if b then 1 else 0))
  | PyInt z => Some (KNum z)
  | PyStr s => Some (KStr s)
  | PyList _ | PyDict _ => None
  end.

Definition is_dict (v : pyval) : bool :=
  match v with PyDict _ => true | _ => false end.

(** ['correlation' in p and 'symmetric' in p], false when the test is
    not defined on [p]. *)
Definition has_both (p : pyval) : bool :=
  match @contains raised p "correlation", @contains raised p "symmetric" with
  | Return true, Return true => true
  | _, _ => false
  end.

(** The items [normalize_chain_parameters] has to add to a dict. *)
Definition missing_defaults (d : list (string * pyval))
  : list (string * pyval) :=
  ((if dict_mem "correlation" d then []
    else [("correlation", DEFAULT_CHAIN_CORRELATION)]) ++
   (if dict_mem "symmetric" d then []
    else [("symmetric", DEFAULT_CHAIN_SYMMETRY)]))%list.

(** The members of the data that no allowed value equals, as the
    validator computes them. *)
Definition illegal_of (l allowed : list pyval) : list pyval :=
  set_diff (dedup l []) (dedup allowed []).

(** The outcome of [normalize_chain_parameters] in closed form. *)
Definition chain_parameters_outcome (p : pyval) : res pyval :=
  if negb (truthy p) then Return DEFAULT_CHAIN_PARAMETERS
  else match p with
       | PyDict d => Return (PyDict (d ++ missing_defaults d))
       | _ => if has_both p then Return p else Raise TypeError
       end.

(** Every attribute description of the map, with the name of its
    collection and its own. *)
Definition all_attributes : list (string * string * attribute) :=
  flat_map (fun c => map (fun a => (fst c, fst a, snd a)) (snd c))
           RESOURCE_ATTRIBUTE_MAP.

(** The name of the collection of a resource kind. *)
Definition plural (k : resource_kind) : string := singular k ++ "s".

(** The dict of the defaults a ['type:dict'] rule declares for its
    keys. *)
Definition key_defaults (specs : list (string * key_spec rule)) : pyval :=
  PyDict (map (fun ks => (fst ks, ks_default (snd ks))) specs).

(** The values left after removing the allowed ones, for data whose
    members are all hashable. *)
Definition illegal_values (l : list pyval) : list pyval :=
  set_diff (dedup l []) SUPPORTED_LB_FIELDS.

(** [if k not in d: d[k] = v], as a function of the dict. *)
Definition with_default (k : string) (v : pyval) (d : list (string * pyval))
  : list (string * pyval) :=
  if dict_mem k d then d else dict_set k v d.

(* ================================================================== *)
(** * Properties *)
(* ================================================================== *)

(** ** Python values *)

Lemma bind_return {E A B} (a : A) (k : A -> result E B) :
  bind (Return a) k = k a.
Proof. reflexivity. Qed.

Lemma eqb_str_r (v : pyval) (s : string) :
  Py.eqb v (PyStr s) = true <-> v = PyStr s.
Proof.
  destruct v; simpl; split; intro H; try discriminate.
  - apply String.eqb_eq in H. now subst.
  - injection H as ->. apply String.eqb_refl.
Qed.

Lemma eqb_none_r (v : pyval) : Py.eqb v PyNone = true <-> v = PyNone.
Proof. destruct v; simpl; split; intro H; try discriminate; reflexivity. Qed.

Lemma eqb_refl_hashable (v : pyval) : hashable v = true -> Py.eqb v v = true.
Proof.
  destruct v; simpl; intro H; try discriminate; trivial.
  - now destruct b.
  - apply Z.eqb_refl.
  - apply String.eqb_refl.
Qed.

Lemma in_list_In (v : pyval) (l : list pyval) :
  hashable v = true -> In v l -> in_list v l = true.
Proof.
  intros Hv Hin. apply existsb_exists. exists v. split; trivial.
  now apply eqb_refl_hashable.
Qed.

(** Membership of a value in a list of strings is plain membership. *)
Lemma in_list_strings (v : pyval) (l : list pyval) :
  Forall (fun u => is_str u = true) l ->
  in_list v l = true <-> In v l.
Proof.
  intros Hl. unfold in_list. rewrite existsb_exists. split.
  - intros (u & Hu & He). rewrite Forall_forall in Hl.
    specialize (Hl u Hu). destruct u; try discriminate.
    apply eqb_str_r in He. now subst.
  - intros Hin. exists v. split; trivial.
    rewrite Forall_forall in Hl. specialize (Hl v Hin).
    destruct v; try discriminate. simpl. apply String.eqb_refl.
Qed.

Lemma dedup_incl (l seen : list pyval) (v : pyval) :
  In v (dedup l seen) -> In v l.
Proof.
  revert seen. induction l as [|u l IH]; simpl; intros seen H; trivial.
  destruct (in_list u seen).
  - right. eapply IH; eassumption.
  - destruct H as [->|H]; [now left | right; eapply IH; eassumption].
Qed.

(** Every member of the list is represented in the set. *)
Lemma dedup_complete (l seen : list pyval) (v : pyval) :
  hashable v = true -> In v l ->
  in_list v seen = true \/ exists u, In u (dedup l seen) /\ Py.eqb v u = true.
Proof.
  intros Hv. revert seen. induction l as [|u l IH]; simpl; intros seen H.
  - contradiction.
  - destruct H as [->|H].
    + destruct (in_list v seen) eqn:E; [now left|].
      right. exists v. split; [now left | now apply eqb_refl_hashable].
    + destruct (in_list u seen) eqn:E.
      * now apply IH.
      * destruct (IH (u :: seen) H) as [Hs|(w & Hw & He)].
        -- simpl in Hs. apply orb_true_iff in Hs. destruct Hs as [Hs|Hs].
           ++ right. exists u. split; [now left | trivial].
           ++ now left.
        -- right. exists w. split; [now right | trivial].
Qed.

Lemma strings_of_all_str (l : list pyval) :
  Forall (fun u => is_str u = true) l -> exists ss, strings_of l = Some ss.
Proof.
  induction 1 as [|u l Hu _ (ss & IH)]; simpl.
  - now exists [].
  - destruct u; try discriminate. rewrite IH. now eexists.
Qed.

Lemma strings_of_not_all_str (l : list pyval) (v : pyval) :
  In v l -> is_str v = false -> strings_of l = None.
Proof.
  induction l as [|u l IH]; simpl; intros Hin Hv; [contradiction|].
  destruct Hin as [->|Hin].
  - destruct v; try discriminate; reflexivity.
  - destruct u; trivial. now rewrite (IH Hin Hv).
Qed.

(** ** The validator of lists of allowed values *)

Lemma filter_nil_iff {A} (f : A -> bool) (l : list A) :
  filter f l = [] <-> forall x, In x l -> f x = false.
Proof.
  induction l as [|a l IH]; simpl.
  - split; [intros _ x [] | reflexivity].
  - destruct (f a) eqn:E; split.
    + discriminate.
    + intros H. specialize (H a (or_introl eq_refl)). congruence.
    + intros H x [->|Hx]; [assumption | now apply IH].
    + intros H. apply IH. intros x Hx. apply H. now right.
Qed.

Lemma supported_are_strings :
  Forall (fun u => is_str u = true) SUPPORTED_LB_FIELDS.
Proof. repeat constructor. Qed.

Lemma supported_set :
  @set_of raised SUPPORTED_LB_FIELDS = Return SUPPORTED_LB_FIELDS.
Proof. reflexivity. Qed.

Lemma str_hashable (v : pyval) : is_str v = true -> hashable v = true.
Proof. destruct v; simpl; congruence. Qed.

Lemma in_supported_str (v : pyval) :
  In v SUPPORTED_LB_FIELDS -> is_str v = true.
Proof.
  intros H. pose proof supported_are_strings as S.
  rewrite Forall_forall in S. now apply S.
Qed.

Lemma validate_hashable (l : list pyval) :
  forallb hashable l = true ->
  validate_list_of_allowed_values (PyList l) SUPPORTED_LB_FIELDS =
  match illegal_values l with
  | [] => Return None
  | _ :: _ =>
      bind (join ", " (illegal_values l)) (fun joined =>
      Return (Some (Msg "Illegal values in a list: %s" [PyStr joined])))
  end.
Proof.
  intros H. unfold validate_list_of_allowed_values, set_of. rewrite H.
  reflexivity.
Qed.

Lemma illegal_values_nil (l : list pyval) :
  forallb hashable l = true ->
  illegal_values l = [] <-> Forall (fun v => In v SUPPORTED_LB_FIELDS) l.
Proof.
  intros Hh. unfold illegal_values, set_diff. rewrite filter_nil_iff.
  rewrite forallb_forall in Hh. rewrite Forall_forall. split.
  - intros H v Hv.
    destruct (dedup_complete l [] v (Hh v Hv) Hv) as [F|(u & Hu & He)];
      [discriminate|].
    specialize (H u Hu). apply negb_false_iff in H.
    apply (in_list_strings u _ supported_are_strings) in H.
    pose proof (in_supported_str u H) as Su.
    destruct u; try discriminate. apply eqb_str_r in He. now subst.
  - intros H u Hu. apply negb_false_iff.
    apply dedup_incl in Hu. specialize (H u Hu).
    now apply (in_list_strings u _ supported_are_strings).
Qed.

(** The validator returns no message exactly for the lists whose members
    are all among the supported fields. *)
Lemma validate_accepts_iff (l : list pyval) :
  validate_list_of_allowed_values (PyList l) SUPPORTED_LB_FIELDS = Return None
  <-> Forall (fun v => In v SUPPORTED_LB_FIELDS) l.
Proof.
  split.
  - intros H. destruct (forallb hashable l) eqn:Hh.
    + apply illegal_values_nil; trivial.
      rewrite (validate_hashable l Hh) in H.
      destruct (illegal_values l) as [|w ws] eqn:E; trivial.
      unfold join in H. destruct (strings_of (w :: ws)); discriminate.
    + unfold validate_list_of_allowed_values, set_of in H.
      rewrite Hh in H. discriminate.
  - intros H.
    assert (Hh : forallb hashable l = true).
    { apply forallb_forall. intros v Hv. rewrite Forall_forall in H.
      apply str_hashable, in_supported_str, H, Hv. }
    rewrite (validate_hashable l Hh).
    apply (illegal_values_nil l Hh) in H. now rewrite H.
Qed.

(** A list of strings with a member outside the supported fields gets
    the message that lists the illegal values. *)
Lemma validate_rejects_strings (l : list pyval) :
  Forall (fun u => is_str u = true) l ->
  ~ Forall (fun v => In v SUPPORTED_LB_FIELDS) l ->
  exists joined,
    validate_list_of_allowed_values (PyList l) SUPPORTED_LB_FIELDS =
    Return (Some (Msg "Illegal values in a list: %s" [PyStr joined])).
Proof.
  intros Hs Hn.
  assert (Hh : forallb hashable l = true).
  { apply forallb_forall. intros v Hv. rewrite Forall_forall in Hs.
    apply str_hashable, Hs, Hv. }
  rewrite (validate_hashable l Hh).
  destruct (illegal_values l) eqn:E.
  - exfalso. apply Hn. now apply illegal_values_nil.
  - rewrite <- E.
    destruct (strings_of_all_str (illegal_values l)) as (ss & Hss).
    + apply Forall_forall. intros v Hv. unfold illegal_values, set_diff in Hv.
      apply filter_In in Hv. destruct Hv as [Hv _]. apply dedup_incl in Hv.
      rewrite Forall_forall in Hs. now apply Hs.
    + unfold join. rewrite Hss. simpl. now eexists.
Qed.

(** A member that is not a string makes the call raise [TypeError]: at
    [set(data)] when some member is unhashable, at [', '.join] when not. *)
Lemma validate_raises_on_non_string (l : list pyval) (v : pyval) :
  In v l -> is_str v = false ->
  validate_list_of_allowed_values (PyList l) SUPPORTED_LB_FIELDS =
  Raise TypeError.
Proof.
  intros Hv Hn. destruct (forallb hashable l) eqn:Hh.
  - rewrite (validate_hashable l Hh).
    assert (Hhv : hashable v = true)
      by (rewrite forallb_forall in Hh; now apply Hh).
    destruct (dedup_complete l [] v Hhv Hv) as [F|(u & Hu & He)];
      [discriminate|].
    assert (Hus : is_str u = false).
    { destruct u; trivial. apply eqb_str_r in He. subst. discriminate. }
    assert (Hi : In u (illegal_values l)).
    { unfold illegal_values, set_diff. apply filter_In. split; trivial.
      apply negb_true_iff. destruct (in_list u SUPPORTED_LB_FIELDS) eqn:E;
        trivial.
      apply (in_list_strings u _ supported_are_strings) in E.
      apply in_supported_str in E. congruence. }
    destruct (illegal_values l) eqn:E; [contradiction|]. rewrite <- E in *.
    unfold join. now rewrite (strings_of_not_all_str _ u Hi Hus).
  - unfold validate_list_of_allowed_values, set_of. now rewrite Hh.
Qed.

(** C1 (the code departs from the claim).  The claim: validating the
    [lb_fields] value of [port_pair_group_parameters] returns an error
    message for every list with a member outside the eight supported
    field names.  At the list [[1]], whose only member is not one of the
    names, the validator returns no message: the call raises [TypeError]
    at [', '.join(illegal_values)]; at [[[]]] it raises at [set(data)].
    The same happens when the host validates the attribute of a
    port-pair-group payload. *)
Theorem C1_lb_fields_non_string_raises :
  key_spec_of "port_pair_groups" "port_pair_group_parameters" "lb_fields" =
    Some (KeySpec (PyList [])
                  (Some (type_list_of_allowed_values SUPPORTED_LB_FIELDS))
                  None) /\
  validate_list_of_allowed_values (PyList [PyInt 1]) SUPPORTED_LB_FIELDS =
    Raise TypeError /\
  validate_list_of_allowed_values (PyList [PyList []]) SUPPORTED_LB_FIELDS =
    Raise TypeError /\
  exists a,
    attribute_of "port_pair_groups" "port_pair_group_parameters" = Some a /\
    forall host : HostLib,
      check_attribute a (PyDict [("lb_fields", PyList [PyInt 1])]) =
      Raise TypeError.
Proof.
  split; [reflexivity|]. split; [reflexivity|]. split; [reflexivity|].
  eexists. split; [reflexivity|]. intros host. reflexivity.
Qed.

Example lb_fields_supported :
  validate_list_of_allowed_values
    (PyList [PyStr "ip_src"; PyStr "tcp_dst"; PyStr "ip_src"])
    SUPPORTED_LB_FIELDS = Return None.
Proof. reflexivity. Qed.

Example lb_fields_illegal :
  validate_list_of_allowed_values
    (PyList [PyStr "ip_src"; PyStr "vlan"; PyStr "sctp_src"; PyStr "vlan"])
    SUPPORTED_LB_FIELDS =
  Return (Some (Msg "Illegal values in a list: %s" [PyStr "vlan, sctp_src"])).
Proof. reflexivity. Qed.

Example lb_fields_not_a_list :
  validate_list_of_allowed_values (PyStr "ip_src") SUPPORTED_LB_FIELDS =
  Return (Some (Msg "'%s' is not a list" [PyStr "ip_src"])).
Proof. reflexivity. Qed.

Example ppg_parameters_default_accepted :
  exists a,
    attribute_of "port_pair_groups" "port_pair_group_parameters" = Some a /\
    check_attribute (host := plain_host) a PyNone = Return None.
Proof. eexists. split; reflexivity. Qed.

(** ** The range of chain identifiers *)

Lemma validate_range_none (z lo hi : Z) :
  validate_range z (lo, hi) = None <-> lo <= z <= hi.
Proof.
  unfold validate_range.
  destruct (z <? lo) eqn:E1; [apply Z.ltb_lt in E1|apply Z.ltb_ge in E1].
  - split; [discriminate | lia].
  - destruct (z >? hi) eqn:E2.
    + split; [discriminate|]. apply Z.gtb_lt in E2. lia.
    + split; trivial. intros _.
      rewrite Z.gtb_ltb in E2. apply Z.ltb_ge in E2. lia.
Qed.

Lemma run_rule_range {host : HostLib} (z : Z) (valid_values : Z * Z) :
  run_rule (type_range valid_values) (PyInt z) =
  Return (validate_range z valid_values).
Proof. reflexivity. Qed.

(** C2.  The [chain_id] attribute of a port chain carries the rule
    ['type:range': (0, MAX_CHAIN_ID)] with [MAX_CHAIN_ID] equal to 65535;
    the range validator returns no message for an integer exactly when
    it lies in the closed range from 0 to 65535, and returns a message
    for every integer outside it. *)
Theorem C2_chain_id_range :
  MAX_CHAIN_ID = 65535 /\
  exists a,
    attribute_of "port_chains" "chain_id" = Some a /\
    validate a = Some (type_range (0, MAX_CHAIN_ID)) /\
    forall (host : HostLib) (z : Z),
      (run_rule (type_range (0, MAX_CHAIN_ID)) (PyInt z) = Return None
       <-> 0 <= z <= 65535) /\
      ((exists msg,
          run_rule (type_range (0, MAX_CHAIN_ID)) (PyInt z) =
          Return (Some msg))
       <-> ~ 0 <= z <= 65535).
Proof.
  split; [reflexivity|]. eexists. split; [reflexivity|].
  split; [reflexivity|]. intros host z. rewrite run_rule_range.
  pose proof (validate_range_none z 0 MAX_CHAIN_ID) as R.
  change MAX_CHAIN_ID with 65535 in *.
  destruct (validate_range z (0, 65535)) as [m|]; split; split.
  - intros H. discriminate H.
  - intros H. apply R in H. discriminate H.
  - intros _ H. apply R in H. discriminate H.
  - intros _. now exists m.
  - intros _. now apply R.
  - reflexivity.
  - intros (msg & H). discriminate H.
  - intros H. exfalso. apply H. now apply R.
Qed.

(** ** The converters *)



(** C4.  When [chain_parameters] is omitted ([None], the default of the
    attribute) or empty, [normalize_chain_parameters] returns exactly
    the dict with [correlation] "mpls" and [symmetric] false. *)
Theorem C4_default_chain_parameters (parameters : pyval) :
  parameters = PyNone \/ parameters = PyDict [] ->
  normalize_chain_parameters parameters =
  Return (PyDict [("correlation", PyStr "mpls"); ("symmetric", PyBool false)]).
Proof. intros [->| ->]; reflexivity. Qed.

Lemma C4_default_chain_parameters_witness :
  (exists a,
     attribute_of "port_chains" "chain_parameters" = Some a /\
     default a = Some PyNone /\
     convert_to a = Some fn_normalize_chain_parameters) /\
  normalize_chain_parameters PyNone =
    Return (PyDict [("correlation", PyStr "mpls");
                    ("symmetric", PyBool false)]) /\
  normalize_chain_parameters (PyDict []) =
    Return (PyDict [("correlation", PyStr "mpls");
                    ("symmetric", PyBool false)]).
Proof.
  split; [eexists; repeat split; reflexivity|]. split.
  - apply (C4_default_chain_parameters PyNone). left. reflexivity.
  - apply (C4_default_chain_parameters (PyDict [])). right. reflexivity.
Defined.

(** C5.  When [service_function_parameters] is omitted ([None], the
    default of the attribute) or empty, [normalize_sf_parameters]
    returns exactly the dict with [correlation] null and [weight] 1. *)
Theorem C5_default_sf_parameters (parameters : pyval) :
  parameters = PyNone \/ parameters = PyDict [] ->
  normalize_sf_parameters parameters =
  PyDict [("correlation", PyNone); ("weight", PyInt 1)].
Proof. intros [->| ->]; reflexivity. Qed.

Lemma C5_default_sf_parameters_witness :
  (exists a,
     attribute_of "port_pairs" "service_function_parameters" = Some a /\
     default a = Some PyNone /\
     convert_to a = Some fn_normalize_sf_parameters) /\
  normalize_sf_parameters PyNone =
    PyDict [("correlation", PyNone); ("weight", PyInt 1)] /\
  normalize_sf_parameters (PyDict []) =
    PyDict [("correlation", PyNone); ("weight", PyInt 1)].
Proof.
  split; [eexists; repeat split; reflexivity|]. split.
  - apply (C5_default_sf_parameters PyNone). left. reflexivity.
  - apply (C5_default_sf_parameters (PyDict [])). right. reflexivity.
Defined.

(** ** Dicts and the defaults of chain parameters *)

Lemma dict_get_set_eq {A} (k : string) (v : A) (d : list (string * A)) :
  dict_get k (dict_set k v d) = Some v.
Proof.
  induction d as [|[k' v'] d IH]; simpl.
  - now rewrite String.eqb_refl.
  - destruct (k' =? k)%string eqn:E; simpl.
    + now rewrite String.eqb_refl.
    + now rewrite E.
Qed.

Lemma dict_get_set_neq {A} (k k' : string) (v : A) (d : list (string * A)) :
  k' <> k -> dict_get k' (dict_set k v d) = dict_get k' d.
Proof.
  intros N. induction d as [|[k0 v0] d IH]; simpl.
  - destruct (k =? k')%string eqn:E; trivial.
    apply String.eqb_eq in E. congruence.
  - destruct (k0 =? k)%string eqn:E; simpl.
    + apply String.eqb_eq in E. subst k0.
      destruct (k =? k')%string eqn:E'; trivial.
      apply String.eqb_eq in E'. congruence.
    + now rewrite IH.
Qed.

Lemma with_default_mem (k : string) (v : pyval) (d : list (string * pyval)) :
  dict_mem k (with_default k v d) = true.
Proof.
  unfold with_default. destruct (dict_mem k d) eqn:E; trivial.
  unfold dict_mem. now rewrite dict_get_set_eq.
Qed.

Lemma with_default_keeps (k k' : string) (v x : pyval)
    (d : list (string * pyval)) :
  dict_get k' d = Some x -> dict_get k' (with_default k v d) = Some x.
Proof.
  intros H. unfold with_default, dict_mem.
  destruct (dict_get k d) eqn:E; trivial.
  rewrite dict_get_set_neq; trivial. congruence.
Qed.

Lemma with_default_fills (k : string) (v : pyval) (d : list (string * pyval)) :
  dict_get k d = None -> dict_get k (with_default k v d) = Some v.
Proof.
  intros H. unfold with_default, dict_mem. rewrite H.
  apply dict_get_set_eq.
Qed.

Lemma with_default_other (k k' : string) (v : pyval)
    (d : list (string * pyval)) :
  k' <> k -> dict_get k' (with_default k v d) = dict_get k' d.
Proof.
  intros N. unfold with_default. destruct (dict_mem k d); trivial.
  now apply dict_get_set_neq.
Qed.

Lemma with_default_mem_other (k k' : string) (v : pyval)
    (d : list (string * pyval)) :
  dict_mem k' d = true -> dict_mem k' (with_default k v d) = true.
Proof.
  unfold dict_mem at 1. destruct (dict_get k' d) eqn:E; [|discriminate].
  intros _. unfold dict_mem. now rewrite (with_default_keeps k k' v p d E).
Qed.

Lemma mem_truthy (k : string) (d : list (string * pyval)) :
  dict_mem k d = true -> truthy (PyDict d) = true.
Proof. destruct d; [discriminate | reflexivity]. Qed.

(** On a non-empty dict the converter fills in the two defaults. *)
Lemma normalize_chain_parameters_dict (d : list (string * pyval)) :
  truthy (PyDict d) = true ->
  normalize_chain_parameters (PyDict d) =
  Return (PyDict (with_default "symmetric" DEFAULT_CHAIN_SYMMETRY
                   (with_default "correlation" DEFAULT_CHAIN_CORRELATION d))).
Proof.
  intros T. unfold normalize_chain_parameters. rewrite T. simpl.
  unfold with_default at 2.
  destruct (dict_mem "correlation" d); simpl; unfold with_default;
    match goal with
    | |- context [dict_mem "symmetric" ?x] =>
        destruct (dict_mem "symmetric" x)
    end; reflexivity.
Qed.

(** A dict that has both keys is returned as it is. *)
Lemma normalize_chain_parameters_fixed (d : list (string * pyval)) :
  dict_mem "correlation" d = true -> dict_mem "symmetric" d = true ->
  normalize_chain_parameters (PyDict d) = Return (PyDict d).
Proof.
  intros C S. rewrite normalize_chain_parameters_dict
    by (eapply mem_truthy; eassumption).
  unfold with_default. now rewrite C, S.
Qed.

(** Normalizing twice is normalizing once, whatever the argument: an
    argument for which the first call raises makes the composition raise
    the same exception. *)
Lemma normalize_chain_parameters_idempotent (p : pyval) :
  bind (normalize_chain_parameters p) normalize_chain_parameters =
  normalize_chain_parameters p.
Proof.
  destruct (truthy p) eqn:T.
  - destruct p as [|b|z|s|l|d]; try discriminate.
    + assert (E : normalize_chain_parameters (PyBool b) = Raise TypeError)
        by (unfold normalize_chain_parameters; now rewrite T).
      now rewrite E.
    + assert (E : normalize_chain_parameters (PyInt z) = Raise TypeError)
        by (unfold normalize_chain_parameters; now rewrite T).
      now rewrite E.
    + assert (E : normalize_chain_parameters (PyStr s) =
                  if occurs "correlation" s && occurs "symmetric" s
                  then Return (PyStr s) else Raise TypeError).
      { unfold normalize_chain_parameters, occurs. rewrite T. simpl.
        destruct (index 0 "correlation" s); simpl; trivial.
        destruct (index 0 "symmetric" s); reflexivity. }
      rewrite E.
      destruct (occurs "correlation" s && occurs "symmetric" s) eqn:B;
        simpl; trivial.
    + assert (E : normalize_chain_parameters (PyList l) =
                  if in_list (PyStr "correlation") l &&
                     in_list (PyStr "symmetric") l
                  then Return (PyList l) else Raise TypeError).
      { unfold normalize_chain_parameters. rewrite T. simpl.
        destruct (in_list (PyStr "correlation") l); simpl; trivial.
        destruct (in_list (PyStr "symmetric") l); reflexivity. }
      rewrite E.
      destruct (in_list (PyStr "correlation") l &&
                in_list (PyStr "symmetric") l) eqn:B; simpl; trivial.
    + rewrite (normalize_chain_parameters_dict d T), bind_return.
      apply normalize_chain_parameters_fixed.
      * apply with_default_mem_other, with_default_mem.
      * apply with_default_mem.
  - assert (E : normalize_chain_parameters p = Return DEFAULT_CHAIN_PARAMETERS)
      by (unfold normalize_chain_parameters; now rewrite T).
    now rewrite E.
Qed.

(** C9.  For every non-empty dict, [normalize_chain_parameters] returns
    a dict in which every value already present is unchanged, the keys
    [correlation] and [symmetric] have their default when they were
    absent, and no other key is added; normalizing the result again
    gives the same result. *)
Theorem C9_chain_parameters_frame (d : list (string * pyval)) :
  d <> [] ->
  exists d',
    normalize_chain_parameters (PyDict d) = Return (PyDict d') /\
    (forall k v, dict_get k d = Some v -> dict_get k d' = Some v) /\
    (dict_get "correlation" d = None ->
     dict_get "correlation" d' = Some (PyStr "mpls")) /\
    (dict_get "symmetric" d = None ->
     dict_get "symmetric" d' = Some (PyBool false)) /\
    (forall k, k <> "correlation" -> k <> "symmetric" ->
               dict_get k d' = dict_get k d) /\
    bind (normalize_chain_parameters (PyDict d)) normalize_chain_parameters =
    normalize_chain_parameters (PyDict d).
Proof.
  intros N.
  assert (T : truthy (PyDict d) = true) by (destruct d; [congruence | reflexivity]).
  eexists. split; [apply (normalize_chain_parameters_dict d T)|].
  split; [|split; [|split; [|split]]].
  - intros k v H. now apply with_default_keeps, with_default_keeps.
  - intros H. apply with_default_keeps. now apply with_default_fills.
  - intros H. apply with_default_fills.
    rewrite with_default_other by discriminate. exact H.
  - intros k N1 N2. now rewrite !with_default_other.
  - apply normalize_chain_parameters_idempotent.
Qed.

Lemma C9_chain_parameters_frame_witness :
  exists d',
    normalize_chain_parameters (PyDict [("symmetric", PyBool true)]) =
      Return (PyDict d') /\
    dict_get "symmetric" d' = Some (PyBool true) /\
    dict_get "correlation" d' = Some (PyStr "mpls") /\
    normalize_chain_parameters (PyDict d') = Return (PyDict d').
Proof.
  destruct (C9_chain_parameters_frame [("symmetric", PyBool true)])
    as (d' & E & K & C & _ & _ & I); [discriminate|].
  exists d'. split; [exact E|]. split; [now apply K|].
  split; [now apply C|]. rewrite E in I. exact I.
Defined.

(** ** Wrapping of port pair groups *)

Lemma convert_to_list_nil (v : pyval) :
  convert_to_list v = [] <-> v = PyNone \/ v = PyList [] \/ v = PyDict [].
Proof.
  split.
  - destruct v as [| | | |l|d]; simpl; intros H; try discriminate.
    + now left.
    + right. left. now subst.
    + right. right. destruct d; [reflexivity | discriminate].
  - intros [->|[->| ->]]; reflexivity.
Qed.

(** C8, as stated, fails: the empty dict is neither a list nor null, yet
    it is not wrapped into a one-element list; the converter raises
    [PortPairGroupNotSpecified] for it. *)
Lemma C8_empty_dict_not_wrapped :
  ~ (forall v, is_list v = false -> v <> PyNone ->
               normalize_port_pair_groups v = Return [v]).
Proof.
  intros H. specialize (H (PyDict []) eq_refl). discriminate H. discriminate.
Qed.

(** C8, amended.  [normalize_port_pair_groups] wraps a boolean, an
    integer or a string into a one-element list and returns it without
    raising; the only exception it raises is [PortPairGroupNotSpecified],
    and it raises it exactly when the converted input is the empty list,
    that is when the input is null, the empty list or the empty dict. *)
Theorem C8_port_pair_groups_wrapping :
  (forall b, normalize_port_pair_groups (PyBool b) = Return [PyBool b]) /\
  (forall z, normalize_port_pair_groups (PyInt z) = Return [PyInt z]) /\
  (forall s, normalize_port_pair_groups (PyStr s) = Return [PyStr s]) /\
  (forall v, raises (normalize_port_pair_groups v) = true <->
             normalize_port_pair_groups v =
             Raise (Exc (Ext PortPairGroupNotSpecified))) /\
  (forall v, raises (normalize_port_pair_groups v) = true <->
             convert_to_list v = []) /\
  (forall v, raises (normalize_port_pair_groups v) = true <->
             v = PyNone \/ v = PyList [] \/ v = PyDict []).
Proof.
  assert (R : forall v, raises (normalize_port_pair_groups v) = true <->
                        convert_to_list v = []).
  { intros v. unfold normalize_port_pair_groups.
    destruct (convert_to_list v); simpl; split; trivial; discriminate. }
  repeat split; try reflexivity.
  - unfold normalize_port_pair_groups.
    destruct (convert_to_list v); [reflexivity | discriminate].
  - intros H. now rewrite H.
  - apply R.
  - apply R.
  - intros H. now apply convert_to_list_nil, R.
  - intros H. now apply R, convert_to_list_nil.
Qed.

(** ** The plugin interface *)

(** C6, as stated, fails: the abstract operations are not sixteen. *)
Lemma C6_not_sixteen_operations : List.length abstract_methods <> 16%nat.
Proof. discriminate. Qed.

(** C6, amended.  [SfcPluginBase] declares exactly fifteen abstract
    operations: the create, update, delete, list and get operations of
    port chains, of port pair groups and of port pairs, five for each
    kind; its three other methods are not abstract. *)
Theorem C6_fifteen_abstract_operations :
  List.length abstract_methods = 15%nat /\
  abstract_methods =
    (operations_of PortChain ++ operations_of PortPairGroup ++
     operations_of PortPair)%list /\
  (forall k, List.length (operations_of k) = 5%nat) /\
  map method_name (filter (fun m => negb (abstract m)) SfcPluginBase) =
    ["get_plugin_name"; "get_plugin_type"; "get_plugin_description"].
Proof.
  split; [reflexivity|]. split; [reflexivity|]. split; [|reflexivity].
  intros []; reflexivity.
Qed.

(** ** The exception conditions *)

Lemma exceptions_complete (e : sfc_exception) : In e exceptions.
Proof. destruct e; simpl; tauto. Qed.

(** C7, as stated, fails: no class about port chains derives from
    [InUse]. *)
Lemma C7_no_in_use_for_port_chains :
  ~ (forall k,
       conditions_of k NotFound <> [] /\
       conditions_of k InUse <> [] /\
       conditions_of k InvalidInput <> []).
Proof.
  intros H. destruct (H PortChain) as (_ & U & _). now apply U.
Qed.

(** C7, amended.  Every exception class of the module is about one of
    the three resource kinds and has a fixed message template.  For each
    kind there is a not-found condition deriving from [NotFound] and an
    invalid-input condition deriving from [InvalidInput]; the in-use
    conditions, deriving from [InUse], are those of port pair groups and
    of port pairs, and port chains have none: the three classes that
    derive from [InUse] all say of a port pair or of a port pair group
    that it is in use. *)
Theorem C7_exception_conditions :
  (forall e, exists k, kind_of e = Some k) /\
  (forall e, message_of e <> "") /\
  (forall k,
     conditions_of k NotFound <> [] /\
     conditions_of k InvalidInput <> []) /\
  (forall k, conditions_of k InUse <> [] <-> k <> PortChain) /\
  filter (fun e => host_error_eqb (base e) InUse) exceptions =
    [InvalidPortPairGroups; PortPairGroupInUse; PortPairInUse] /\
  forallb (fun e => prefix "Port Pair" (message_of e))
          [InvalidPortPairGroups; PortPairGroupInUse; PortPairInUse] = true /\
  conditions_of PortChain NotFound = [PortChainNotFound] /\
  conditions_of PortPairGroup NotFound = [PortPairGroupNotFound] /\
  conditions_of PortPair NotFound = [PortPairPortNotFound; PortPairNotFound] /\
  conditions_of PortPairGroup InUse =
    [InvalidPortPairGroups; PortPairGroupInUse] /\
  conditions_of PortPair InUse = [PortPairInUse] /\
  conditions_of PortChain InvalidInput =
    [PortChainUnavailableChainId; PortChainFlowClassifierInConflict;
     PortChainChainIdInConflict] /\
  conditions_of PortPairGroup InvalidInput = [PortPairGroupNotSpecified] /\
  conditions_of PortPair InvalidInput =
    [PortPairIngressEgressDifferentHost; PortPairIngressNoHost;
     PortPairEgressNoHost; PortPairIngressEgressInUse].
Proof.
  split; [intros []; eexists; reflexivity|].
  split; [intros []; discriminate|].
  split; [intros []; split; discriminate|].
  split; [|repeat split; reflexivity].
  intros []; split; intros H; try discriminate.
  - now contradiction H.
  - now contradiction H.
Qed.

(** ** The correlation of a port pair *)

Lemma validate_values_only_none (v : pyval) :
  validate_values v [PyNone] = None <-> v = PyNone.
Proof.
  unfold validate_values, in_list. simpl. rewrite orb_false_r.
  destruct (Py.eqb v PyNone) eqn:E.
  - apply eqb_none_r in E. now split.
  - split; [discriminate|]. intros ->. discriminate.
Qed.

(** C10.  In the schema of a port pair, the [correlation] key of
    [service_function_parameters] has the allowed values [[None]] and
    nothing else; every payload whose [service_function_parameters] is a
    dict with a [correlation] other than null is rejected, with the
    message of the allowed-values validator. *)
Theorem C10_port_pair_correlation_must_be_null
    (host : HostLib) (a : attribute)
    (d : list (string * pyval)) (v : pyval) :
  attribute_of "port_pairs" "service_function_parameters" = Some a ->
  dict_get "correlation" d = Some v ->
  v <> PyNone ->
  (exists spec,
     key_spec_of "port_pairs" "service_function_parameters" "correlation" =
       Some spec /\
     ks_rule spec = Some (type_values [PyNone])) /\
  check_attribute a (PyDict d) =
    Return (Some (Msg "'%(data)s' is not in %(valid_values)s"
                      [v; PyList [PyNone]])) /\
  accepted (check_attribute a (PyDict d)) = false.
Proof.
  intros A G N. split; [eexists; split; reflexivity|].
  injection A as <-.
  assert (V : validate_values v [PyNone] =
              Some (Msg "'%(data)s' is not in %(valid_values)s"
                        [v; PyList [PyNone]])).
  { unfold validate_values, in_list. simpl. rewrite orb_false_r.
    destruct (Py.eqb v PyNone) eqn:E; trivial.
    apply eqb_none_r in E. contradiction. }
  assert (T : normalize_sf_parameters (PyDict d) = PyDict d).
  { unfold normalize_sf_parameters. destruct d; [discriminate|reflexivity]. }
  match goal with |- ?c = ?r /\ _ => assert (C : c = r) end.
  { unfold check_attribute. cbn [convert convert_to call validate].
    rewrite T, bind_return.
    cbn [run_rule dict_get String.eqb Ascii.eqb Bool.eqb].
    rewrite G. cbn [ks_convert_to ks_rule convert bind run_rule].
    now rewrite V. }
  split; [exact C|]. now rewrite C.
Qed.

Lemma C10_port_pair_correlation_must_be_null_witness :
  exists a,
    attribute_of "port_pairs" "service_function_parameters" = Some a /\
    check_attribute (host := plain_host) a
      (PyDict [("weight", PyInt 2); ("correlation", PyStr "mpls")]) =
    Return (Some (Msg "'%(data)s' is not in %(valid_values)s"
                      [PyStr "mpls"; PyList [PyNone]])).
Proof.
  eexists. split; [reflexivity|].
  apply (C10_port_pair_correlation_must_be_null plain_host _
           [("weight", PyInt 2); ("correlation", PyStr "mpls")]
           (PyStr "mpls")).
  - reflexivity.
  - reflexivity.
  - discriminate.
Defined.

(* ================================================================== *)
(** * Further properties of the module *)
(* ================================================================== *)

(** ** Equality of hashable values *)

Lemma key_of_hashable (v : pyval) :
  hashable v = true <-> exists k, key_of v = Some k.
Proof.
  destruct v; simpl; split; intros H; try discriminate; eauto;
    destruct H as (k & H); discriminate.
Qed.

Lemma eqb_key (v u : pyval) :
  hashable v = true -> (Py.eqb v u = true <-> key_of u = key_of v).
Proof.
  intros Hv. destruct v as [|b|z|s|l|d]; try discriminate;
    destruct u as [|b'|z'|s'|l'|d']; simpl; split; intros H;
    try discriminate; try reflexivity.
  - destruct b, b'; try discriminate; reflexivity.
  - destruct b, b'; try discriminate; reflexivity.
  - apply Z.eqb_eq in H. now subst.
  - injection H as ->. apply Z.eqb_refl.
  - apply Z.eqb_eq in H. now subst.
  - injection H as <-. apply Z.eqb_refl.
  - apply Z.eqb_eq in H. now subst.
  - injection H as ->. apply Z.eqb_refl.
  - apply String.eqb_eq in H. now subst.
  - injection H as ->. apply String.eqb_refl.
Qed.

Lemma is_str_key (v u : pyval) :
  key_of u = key_of v -> hashable v = true -> is_str u = is_str v.
Proof.
  destruct v; try discriminate; destruct u; simpl; intros H _;
    try discriminate; reflexivity.
Qed.

Lemma in_list_key (v : pyval) (L : list pyval) :
  hashable v = true ->
  (in_list v L = true <-> exists a, In a L /\ key_of a = key_of v).
Proof.
  intros Hv. unfold in_list. rewrite existsb_exists.
  split; intros (a & Ha & H); exists a; split; trivial;
    now apply (eqb_key v a Hv).
Qed.

Lemma in_list_same_key (v u : pyval) (L : list pyval) :
  hashable v = true -> key_of u = key_of v -> in_list u L = in_list v L.
Proof.
  intros Hv K.
  assert (Hu : hashable u = true).
  { apply key_of_hashable. apply key_of_hashable in Hv.
    destruct Hv as (k & Hk). exists k. congruence. }
  apply eq_true_iff_eq. rewrite (in_list_key v L Hv), (in_list_key u L Hu).
  now rewrite K.
Qed.

(** Turning a list into a set neither adds nor loses a member. *)
Lemma in_list_dedup_seen (v : pyval) (a seen : list pyval) :
  hashable v = true ->
  in_list v a = true ->
  in_list v seen = true \/ in_list v (dedup a seen) = true.
Proof.
  intros Hv. revert seen. induction a as [|x a IH]; simpl; intros seen H.
  - discriminate.
  - apply orb_true_iff in H. destruct (in_list x seen) eqn:E.
    + destruct H as [H|H]; [|now apply IH].
      left. apply (eqb_key v x Hv) in H.
      rewrite <- (in_list_same_key v x seen Hv H). exact E.
    + destruct H as [H|H].
      * right. simpl. now rewrite H.
      * destruct (IH (x :: seen) H) as [S|S].
        -- simpl in S. apply orb_true_iff in S. destruct S as [S|S].
           ++ right. simpl. now rewrite S.
           ++ now left.
        -- right. simpl. rewrite S. apply orb_true_r.
Qed.

Lemma in_list_dedup (v : pyval) (a : list pyval) :
  hashable v = true -> in_list v (dedup a []) = in_list v a.
Proof.
  intros Hv. apply eq_true_iff_eq. split; intros H.
  - unfold in_list in *. rewrite existsb_exists in *.
    destruct H as (u & Hu & He). exists u. split; trivial.
    eapply dedup_incl; eassumption.
  - destruct (in_list_dedup_seen v a [] Hv H) as [F|R]; [discriminate|exact R].
Qed.

Lemma dedup_not_seen (l seen : list pyval) (u : pyval) :
  In u (dedup l seen) -> in_list u seen = false.
Proof.
  revert seen. induction l as [|x l IH]; simpl; intros seen H; [contradiction|].
  destruct (in_list x seen) eqn:E; [now apply IH|].
  destruct H as [->|H]; trivial.
  specialize (IH _ H). simpl in IH. now apply orb_false_iff in IH.
Qed.

(** A set has no repeated member. *)
Lemma dedup_NoDup (l seen : list pyval) :
  forallb hashable l = true -> NoDup (dedup l seen).
Proof.
  revert seen. induction l as [|x l IH]; simpl; intros seen H.
  - constructor.
  - apply andb_true_iff in H. destruct H as [Hx Hl].
    destruct (in_list x seen); [now apply IH|].
    constructor; [|now apply IH].
    intros Hin. apply dedup_not_seen in Hin. simpl in Hin.
    now rewrite (eqb_refl_hashable x Hx) in Hin.
Qed.

Lemma strings_of_none_iff (L : list pyval) :
  strings_of L = None <-> exists u, In u L /\ is_str u = false.
Proof.
  split.
  - induction L as [|x L IH]; simpl; [discriminate|].
    destruct x; try (intros _; eexists; split; [left; reflexivity|reflexivity]).
    destruct (strings_of L); [discriminate|].
    intros _. destruct (IH eq_refl) as (u & Hu & Hs).
    exists u. split; [now right | trivial].
  - intros (u & Hu & Hs). now apply (strings_of_not_all_str L u).
Qed.

Lemma strings_of_some (L : list pyval) (ss : list string) :
  strings_of L = Some ss -> L = map PyStr ss.
Proof.
  revert ss. induction L as [|x L IH]; simpl; intros ss H.
  - now injection H as <-.
  - destruct x; try discriminate.
    destruct (strings_of L) as [ss'|]; [|discriminate].
    injection H as <-. simpl. now rewrite (IH ss' eq_refl).
Qed.

(** ** The validator, for any list of allowed values *)

Lemma validate_general (l allowed : list pyval) :
  forallb hashable l = true -> forallb hashable allowed = true ->
  validate_list_of_allowed_values (PyList l) allowed =
  match illegal_of l allowed with
  | [] => Return None
  | _ :: _ =>
      joined <- join ", " (illegal_of l allowed) ;;
      Return (Some (Msg "Illegal values in a list: %s" [PyStr joined]))
  end.
Proof.
  intros Hl Ha. unfold validate_list_of_allowed_values, set_of.
  now rewrite Hl, Ha.
Qed.

Lemma In_illegal_of (l allowed : list pyval) (u : pyval) :
  forallb hashable l = true ->
  (In u (illegal_of l allowed) <->
   In u (dedup l []) /\ in_list u allowed = false).
Proof.
  intros Hl. unfold illegal_of, set_diff. rewrite filter_In.
  split; intros [Hu H]; split; trivial.
  - apply negb_true_iff in H. rewrite in_list_dedup in H; trivial.
    rewrite forallb_forall in Hl. apply Hl. eapply dedup_incl; eassumption.
  - apply negb_true_iff. rewrite in_list_dedup; trivial.
    rewrite forallb_forall in Hl. apply Hl. eapply dedup_incl; eassumption.
Qed.

Lemma illegal_of_nil (l allowed : list pyval) :
  forallb hashable l = true ->
  (illegal_of l allowed = [] <->
   forallb (fun v => in_list v allowed) l = true).
Proof.
  intros Hl. rewrite forallb_forall. split.
  - intros E v Hv.
    assert (Hh : hashable v = true)
      by (rewrite forallb_forall in Hl; now apply Hl).
    destruct (dedup_complete l [] v Hh Hv) as [F|(u & Hu & He)];
      [discriminate|].
    apply (eqb_key v u Hh) in He.
    rewrite <- (in_list_same_key v u allowed Hh He).
    destruct (in_list u allowed) eqn:I; trivial.
    assert (Hi : In u (illegal_of l allowed))
      by (apply In_illegal_of; auto).
    rewrite E in Hi. contradiction.
  - intros H. destruct (illegal_of l allowed) as [|u us] eqn:E; trivial.
    assert (Hi : In u (illegal_of l allowed)) by (rewrite E; now left).
    apply In_illegal_of in Hi; trivial. destruct Hi as [Hu I].
    apply dedup_incl in Hu. rewrite (H u Hu) in I. discriminate.
Qed.

Lemma illegal_of_non_str (l allowed : list pyval) :
  forallb hashable l = true ->
  ((exists u, In u (illegal_of l allowed) /\ is_str u = false) <->
   existsb (fun v => negb (is_str v) && negb (in_list v allowed)) l = true).
Proof.
  intros Hl. rewrite existsb_exists. split.
  - intros (u & Hu & Hs). apply In_illegal_of in Hu; trivial.
    destruct Hu as [Hu I]. exists u. split; [eapply dedup_incl; eassumption|].
    now rewrite Hs, I.
  - intros (v & Hv & H). apply andb_true_iff in H. destruct H as [Hs I].
    apply negb_true_iff in Hs, I.
    assert (Hh : hashable v = true)
      by (rewrite forallb_forall in Hl; now apply Hl).
    destruct (dedup_complete l [] v Hh Hv) as [F|(u & Hu & He)];
      [discriminate|].
    apply (eqb_key v u Hh) in He. exists u. split.
    + apply In_illegal_of; trivial. split; trivial.
      now rewrite (in_list_same_key v u allowed Hh He).
    + now rewrite (is_str_key v u He Hh).
Qed.

Lemma accepts_list (l allowed : list pyval) :
  validate_list_of_allowed_values (PyList l) allowed = Return None <->
  forallb hashable l = true /\ forallb hashable allowed = true /\
  forallb (fun v => in_list v allowed) l = true.
Proof.
  split.
  - intros H. destruct (forallb hashable l) eqn:Hl;
      [|unfold validate_list_of_allowed_values, set_of in H;
        rewrite Hl in H; discriminate H].
    destruct (forallb hashable allowed) eqn:Ha;
      [|unfold validate_list_of_allowed_values, set_of in H;
        rewrite Hl, Ha in H; discriminate H].
    repeat split. apply illegal_of_nil; trivial.
    rewrite (validate_general l allowed Hl Ha) in H.
    destruct (illegal_of l allowed) as [|w ws]; trivial.
    unfold join in H. destruct (strings_of (w :: ws)); discriminate H.
  - intros (Hl & Ha & H). rewrite (validate_general l allowed Hl Ha).
    apply (illegal_of_nil l allowed Hl) in H. now rewrite H.
Qed.

Lemma raises_list (l allowed : list pyval) :
  validate_list_of_allowed_values (PyList l) allowed = Raise TypeError <->
  forallb hashable l = false \/ forallb hashable allowed = false \/
  existsb (fun v => negb (is_str v) && negb (in_list v allowed)) l = true.
Proof.
  destruct (forallb hashable l) eqn:Hl.
  2:{ unfold validate_list_of_allowed_values, set_of. rewrite Hl.
      split; [now left | reflexivity]. }
  destruct (forallb hashable allowed) eqn:Ha.
  2:{ unfold validate_list_of_allowed_values, set_of. rewrite Hl, Ha.
      split; [right; now left | reflexivity]. }
  rewrite (validate_general l allowed Hl Ha).
  rewrite <- (illegal_of_non_str l allowed Hl).
  rewrite <- strings_of_none_iff.
  destruct (illegal_of l allowed) as [|w ws] eqn:E.
  - split; [discriminate|]. intros [F|[F|F]]; discriminate F.
  - unfold join. destruct (strings_of (w :: ws)); simpl; split.
    + discriminate.
    + intros [F|[F|F]]; discriminate F.
    + intros _. right. now right.
    + reflexivity.
Qed.

(** X1.  For any allowed values, the validator returns no message
    exactly when the data is a list, the members of the data and the
    allowed values are all hashable, and every member of the data equals
    an allowed value; so it accepts the empty list whenever the allowed
    values are hashable. *)
Theorem X1_validate_accepts_iff (data : pyval) (allowed : list pyval) :
  validate_list_of_allowed_values data allowed = Return None <->
  exists l,
    data = PyList l /\
    forallb hashable l = true /\ forallb hashable allowed = true /\
    forallb (fun v => in_list v allowed) l = true.
Proof.
  split.
  - intros H. destruct data as [| | | |l|]; try discriminate H.
    exists l. split; [reflexivity|]. now apply accepts_list.
  - intros (l & -> & H). now apply accepts_list.
Qed.

(** X2.  The only exception the validator raises is [TypeError], and it
    raises it exactly when the data is a list and a member of the data
    or an allowed value is unhashable, or a member of the data is not a
    string and equals no allowed value.  Data that is not a list never
    makes it raise. *)
Theorem X2_validate_raises_iff (data : pyval) (allowed : list pyval) :
  (raises (validate_list_of_allowed_values data allowed) = true <->
   validate_list_of_allowed_values data allowed = Raise TypeError) /\
  (validate_list_of_allowed_values data allowed = Raise TypeError <->
   exists l,
     data = PyList l /\
     (forallb hashable l = false \/ forallb hashable allowed = false \/
      existsb (fun v => negb (is_str v) && negb (in_list v allowed)) l
      = true)).
Proof.
  split.
  - split; [|intros ->; reflexivity].
    destruct data as [| | | |l|]; try discriminate.
    unfold validate_list_of_allowed_values, set_of, join.
    destruct (forallb hashable l); trivial.
    destruct (forallb hashable allowed); trivial. simpl.
    destruct (set_diff _ _) as [|w ws]; [discriminate|].
    destruct (strings_of (w :: ws)); [discriminate | reflexivity].
  - split.
    + intros H. destruct data as [| | | |l|]; try discriminate H.
      exists l. split; [reflexivity|]. now apply raises_list.
    + intros (l & -> & H). now apply raises_list.
Qed.

Lemma In_dedup_str (l : list pyval) (s : string) :
  forallb hashable l = true ->
  (In (PyStr s) (dedup l []) <-> In (PyStr s) l).
Proof.
  intros Hl. split; [apply dedup_incl|]. intros H.
  destruct (dedup_complete l [] (PyStr s) eq_refl H) as [F|(u & Hu & He)];
    [discriminate|].
  destruct u; try discriminate He. simpl in He.
  apply String.eqb_eq in He. now subst.
Qed.

(** X3.  When the validator returns a message for a list, the message is
    "Illegal values in a list: %s" filled with the illegal values joined
    by ", ": every string of the data that equals no allowed value is
    named, each exactly once, and nothing else is. *)
Theorem X3_validate_message (l allowed : list pyval) (m : message) :
  validate_list_of_allowed_values (PyList l) allowed = Return (Some m) ->
  exists ill,
    m = Msg "Illegal values in a list: %s" [PyStr (String.concat ", " ill)] /\
    ill <> [] /\ NoDup ill /\
    forall s, In s ill <-> In (PyStr s) l /\ in_list (PyStr s) allowed = false.
Proof.
  intros H.
  destruct (forallb hashable l) eqn:Hl;
    [|unfold validate_list_of_allowed_values, set_of in H;
      rewrite Hl in H; discriminate H].
  destruct (forallb hashable allowed) eqn:Ha;
    [|unfold validate_list_of_allowed_values, set_of in H;
      rewrite Hl, Ha in H; discriminate H].
  rewrite (validate_general l allowed Hl Ha) in H.
  destruct (illegal_of l allowed) as [|w ws] eqn:E; [discriminate H|].
  rewrite <- E in H. unfold join in H.
  destruct (strings_of (illegal_of l allowed)) as [ill|] eqn:S;
    [|discriminate H].
  simpl in H. injection H as <-. apply strings_of_some in S.
  exists ill. split; [reflexivity|]. split; [|split].
  - intros ->. rewrite E in S. discriminate S.
  - apply (NoDup_map_inv PyStr). rewrite <- S.
    apply NoDup_filter. now apply dedup_NoDup.
  - intros s. rewrite <- (In_dedup_str l s Hl).
    rewrite <- (In_illegal_of l allowed (PyStr s) Hl). rewrite S.
    rewrite in_map_iff. split.
    + intros Hs. now exists s.
    + intros (s' & Es & Hs). injection Es as ->. exact Hs.
Qed.

Lemma X3_validate_message_witness :
  exists ill,
    ill <> [] /\ NoDup ill /\
    (forall s, In s ill <->
               In (PyStr s) [PyStr "vlan"; PyStr "ip_src"; PyStr "vlan"] /\
               in_list (PyStr s) SUPPORTED_LB_FIELDS = false).
Proof.
  destruct (X3_validate_message
              [PyStr "vlan"; PyStr "ip_src"; PyStr "vlan"] SUPPORTED_LB_FIELDS
              (Msg "Illegal values in a list: %s" [PyStr "vlan"]) eq_refl)
    as (ill & _ & N & D & M).
  exists ill. split; [exact N|]. split; [exact D | exact M].
Defined.

(** X4.  Whether the validator accepts a list, rejects it with a message
    or raises depends on the members of the list alone: two lists with
    the same members, in whatever order and however often repeated, get
    the same kind of outcome. *)
Theorem X4_validate_members_only (l l' allowed : list pyval) :
  (forall v, In v l <-> In v l') ->
  (validate_list_of_allowed_values (PyList l) allowed = Return None <->
   validate_list_of_allowed_values (PyList l') allowed = Return None) /\
  (validate_list_of_allowed_values (PyList l) allowed = Raise TypeError <->
   validate_list_of_allowed_values (PyList l') allowed = Raise TypeError).
Proof.
  intros M.
  assert (F : forall P, forallb P l = forallb P l').
  { intros P. apply eq_true_iff_eq. rewrite !forallb_forall.
    split; intros H v Hv; apply H; now apply M. }
  assert (X : forall P, existsb P l = existsb P l').
  { intros P. apply eq_true_iff_eq. rewrite !existsb_exists.
    split; intros (v & Hv & H); exists v; split; trivial; now apply M. }
  split.
  - rewrite !accepts_list. now rewrite !F.
  - rewrite !raises_list. now rewrite F, X.
Qed.

Lemma X4_validate_members_only_witness :
  validate_list_of_allowed_values
    (PyList [PyStr "ip_dst"; PyStr "ip_src"; PyStr "ip_dst"])
    SUPPORTED_LB_FIELDS = Return None.
Proof.
  apply (X4_validate_members_only
           [PyStr "ip_src"; PyStr "ip_dst"]
           [PyStr "ip_dst"; PyStr "ip_src"; PyStr "ip_dst"]
           SUPPORTED_LB_FIELDS).
  - intros v. simpl. tauto.
  - reflexivity.
Defined.

(** ** Chain parameters, for any argument *)

Lemma dict_get_app {A} (k : string) (d e : list (string * A)) :
  dict_get k (d ++ e) =
  match dict_get k d with Some v => Some v | None => dict_get k e end.
Proof.
  induction d as [|[k' v'] d IH]; simpl; trivial.
  destruct (k' =? k)%string; trivial.
Qed.

Lemma dict_set_absent {A} (k : string) (v : A) (d : list (string * A)) :
  dict_get k d = None -> dict_set k v d = (d ++ [(k, v)])%list.
Proof.
  induction d as [|[k' v'] d IH]; simpl; trivial.
  destruct (k' =? k)%string; [discriminate|].
  intros H. now rewrite (IH H).
Qed.

Lemma with_default_app (k : string) (v : pyval) (d : list (string * pyval)) :
  with_default k v d =
  (d ++ (if dict_mem k d then [] else [(k, v)]))%list.
Proof.
  unfold with_default, dict_mem. destruct (dict_get k d) eqn:E.
  - now rewrite app_nil_r.
  - now apply dict_set_absent.
Qed.

Lemma fill_defaults_app (d : list (string * pyval)) :
  with_default "symmetric" DEFAULT_CHAIN_SYMMETRY
    (with_default "correlation" DEFAULT_CHAIN_CORRELATION d) =
  (d ++ missing_defaults d)%list.
Proof.
  rewrite (with_default_app "symmetric"), (with_default_app "correlation").
  unfold missing_defaults. rewrite <- app_assoc. f_equal. f_equal.
  unfold dict_mem. rewrite dict_get_app.
  destruct (dict_get "symmetric" d); trivial.
  destruct (dict_get "correlation" d); reflexivity.
Qed.

(** The function computes the closed form. *)
Lemma normalize_chain_parameters_outcome (p : pyval) :
  normalize_chain_parameters p = chain_parameters_outcome p.
Proof.
  unfold chain_parameters_outcome. destruct (truthy p) eqn:T; simpl.
  - destruct p as [|b|z|s|l|d]; try discriminate.
    + unfold normalize_chain_parameters. now rewrite T.
    + unfold normalize_chain_parameters. now rewrite T.
    + unfold normalize_chain_parameters, has_both. rewrite T. simpl.
      destruct (index 0 "correlation" s); simpl; trivial.
      destruct (index 0 "symmetric" s); reflexivity.
    + unfold normalize_chain_parameters, has_both. rewrite T. simpl.
      destruct (in_list (PyStr "correlation") l); simpl; trivial.
      destruct (in_list (PyStr "symmetric") l); reflexivity.
    + rewrite (normalize_chain_parameters_dict d T).
      now rewrite fill_defaults_app.
  - unfold normalize_chain_parameters. now rewrite T.
Qed.

Lemma has_both_dict (d : list (string * pyval)) :
  has_both (PyDict d) =
  dict_mem "correlation" d && dict_mem "symmetric" d.
Proof.
  unfold has_both. simpl.
  destruct (dict_mem "correlation" d), (dict_mem "symmetric" d); reflexivity.
Qed.

Lemma has_both_filled (d : list (string * pyval)) :
  has_both (PyDict (d ++ missing_defaults d)) = true.
Proof.
  rewrite <- fill_defaults_app, has_both_dict.
  rewrite with_default_mem.
  now rewrite with_default_mem_other by apply with_default_mem.
Qed.

Lemma has_both_truthy (p : pyval) :
  has_both p = true -> is_dict p = false -> truthy p = true.
Proof.
  destruct p as [|b|z|s|l|d]; try discriminate.
  - unfold has_both. simpl. destruct s; [discriminate | reflexivity].
  - unfold has_both. simpl. destruct l; [discriminate | reflexivity].
Qed.

Lemma missing_defaults_nil (d : list (string * pyval)) :
  has_both (PyDict d) = true -> missing_defaults d = [].
Proof.
  rewrite has_both_dict. intros H. apply andb_true_iff in H.
  destruct H as [C S]. unfold missing_defaults. now rewrite C, S.
Qed.

(** Values that have both keys are returned as they are. *)
Lemma normalize_chain_parameters_stable (q : pyval) :
  truthy q = true -> has_both q = true ->
  normalize_chain_parameters q = Return q.
Proof.
  intros T B. rewrite normalize_chain_parameters_outcome.
  unfold chain_parameters_outcome. rewrite T. simpl.
  destruct q as [|b|z|s|l|d]; try (now rewrite B).
  now rewrite (missing_defaults_nil d B), app_nil_r.
Qed.

(** X5.  Whatever its argument, when [normalize_chain_parameters]
    returns, the result is not empty, both ['correlation' in result] and
    ['symmetric' in result] hold, and normalizing the result again
    returns it unchanged. *)
Theorem X5_chain_parameters_result (p q : pyval) :
  normalize_chain_parameters p = Return q ->
  truthy q = true /\
  @contains raised q "correlation" = Return true /\
  @contains raised q "symmetric" = Return true /\
  normalize_chain_parameters q = Return q.
Proof.
  intros H.
  assert (TB : truthy q = true /\ has_both q = true).
  { rewrite normalize_chain_parameters_outcome in H.
    unfold chain_parameters_outcome in H.
    destruct (truthy p) eqn:T; simpl in H.
    - destruct p as [|b|z|s|l|d]; try discriminate T;
        try (destruct (has_both _) eqn:B; [|discriminate H];
             injection H as <-; now split).
      injection H as <-. split; [|apply has_both_filled].
      destruct d; [discriminate T | reflexivity].
    - injection H as <-. now split. }
  destruct TB as [T B]. split; [exact T|].
  split; [|split; [|now apply normalize_chain_parameters_stable]].
  - unfold has_both in B.
    destruct (@contains raised q "correlation") as [[|]|]; trivial;
      discriminate B.
  - unfold has_both in B.
    destruct (@contains raised q "correlation") as [[|]|];
      try discriminate B.
    destruct (@contains raised q "symmetric") as [[|]|]; trivial;
      discriminate B.
Qed.

Lemma X5_chain_parameters_result_witness :
  normalize_chain_parameters
    (PyDict [("correlation", PyStr "mpls"); ("symmetric", PyBool false)]) =
  Return (PyDict [("correlation", PyStr "mpls"); ("symmetric", PyBool false)]).
Proof.
  apply (X5_chain_parameters_result PyNone). reflexivity.
Defined.

(** X6.  [normalize_chain_parameters] never raises for null or for a
    dict; the only exception it raises is [TypeError], exactly when the
    argument is true-valued, is not a dict and does not contain both
    keys (a number, [True], or a list or string without one of them). *)
Theorem X6_chain_parameters_raises_iff (p : pyval) :
  (raises (normalize_chain_parameters p) = true <->
   normalize_chain_parameters p = Raise TypeError) /\
  (normalize_chain_parameters p = Raise TypeError <->
   truthy p = true /\ is_dict p = false /\ has_both p = false).
Proof.
  rewrite normalize_chain_parameters_outcome. unfold chain_parameters_outcome.
  destruct (truthy p) eqn:T; simpl.
  - destruct p as [|b|z|s|l|d]; try discriminate T; simpl.
    + change (has_both (PyBool b)) with false.
      intuition (try discriminate; try congruence).
    + change (has_both (PyInt z)) with false.
      intuition (try discriminate; try congruence).
    + destruct (has_both (PyStr s)); simpl;
        intuition (try discriminate; try congruence).
    + destruct (has_both (PyList l)); simpl;
        intuition (try discriminate; try congruence).
    + intuition (try discriminate; try congruence).
  - intuition (try discriminate; try congruence).
Qed.


(** X8.  On a non-empty dict [normalize_chain_parameters] only appends:
    the result is the dict followed by at most two new items, each of
    them the default of [correlation] or of [symmetric] for a key the
    dict did not have, so no item is removed, reordered or overwritten. *)
Theorem X8_chain_parameters_appends (d : list (string * pyval)) :
  d <> [] ->
  exists extra,
    normalize_chain_parameters (PyDict d) = Return (PyDict (d ++ extra)) /\
    (List.length extra <= 2)%nat /\
    NoDup (map fst extra) /\
    forall k v,
      In (k, v) extra <->
      dict_get k d = None /\
      ((k = "correlation" /\ v = PyStr "mpls") \/
       (k = "symmetric" /\ v = PyBool false)).
Proof.
  intros N. exists (missing_defaults d).
  split; [|split; [|split]].
  - rewrite normalize_chain_parameters_outcome. unfold chain_parameters_outcome.
    destruct d; [congruence | reflexivity].
  - unfold missing_defaults.
    destruct (dict_mem "correlation" d), (dict_mem "symmetric" d); simpl; lia.
  - unfold missing_defaults.
    destruct (dict_mem "correlation" d), (dict_mem "symmetric" d); simpl;
      repeat constructor; simpl; intuition discriminate.
  - intros k v. unfold missing_defaults, dict_mem.
    destruct (dict_get "correlation" d) eqn:C;
      destruct (dict_get "symmetric" d) eqn:S; simpl; split;
      try (intros [H|[H|H]]); try (intros [H|H]); try contradiction;
      try (injection H as <- <-; split; [assumption | tauto]);
      try (intros (G & [[-> ->]|[-> ->]]); try congruence; tauto).
Qed.

Lemma X8_chain_parameters_appends_witness :
  exists extra,
    normalize_chain_parameters (PyDict [("symmetric", PyBool true)]) =
    Return (PyDict ([("symmetric", PyBool true)] ++ extra)) /\
    (List.length extra <= 2)%nat.
Proof.
  destruct (X8_chain_parameters_appends [("symmetric", PyBool true)])
    as (extra & E & L & _); [discriminate|].
  exists extra. split; [exact E | exact L].
Defined.

(** ** The other converters *)

(** X9.  [normalize_sf_parameters] and [normalize_ppg_parameters] return
    their argument as it is exactly when it is true-valued (they do not
    fill in the missing keys of a non-empty dict), and their module
    default otherwise: the result is [DEFAULT_SF_PARAMETERS], or
    [DEFAULT_PPG_PARAMETERS], exactly when the argument is not
    true-valued or is that dict already.  The result is never empty, and
    normalizing twice is normalizing once. *)
Theorem X9_sf_ppg_parameters_pass_through (p : pyval) :
  (normalize_sf_parameters p = p <-> truthy p = true) /\
  (normalize_ppg_parameters p = p <-> truthy p = true) /\
  (normalize_sf_parameters p = DEFAULT_SF_PARAMETERS <->
   truthy p = false \/ p = DEFAULT_SF_PARAMETERS) /\
  (normalize_ppg_parameters p = DEFAULT_PPG_PARAMETERS <->
   truthy p = false \/ p = DEFAULT_PPG_PARAMETERS) /\
  DEFAULT_SF_PARAMETERS =
    PyDict [("correlation", PyNone); ("weight", PyInt 1)] /\
  DEFAULT_PPG_PARAMETERS = PyDict [("lb_fields", PyList [])] /\
  truthy (normalize_sf_parameters p) = true /\
  truthy (normalize_ppg_parameters p) = true /\
  normalize_sf_parameters (normalize_sf_parameters p) =
    normalize_sf_parameters p /\
  normalize_ppg_parameters (normalize_ppg_parameters p) =
    normalize_ppg_parameters p.
Proof.
  unfold normalize_sf_parameters, normalize_ppg_parameters.
  destruct (truthy p) eqn:T; simpl; rewrite ?T.
  - repeat split; trivial; try (intros [F|H]; [discriminate F | exact H]);
      intros H; now right.
  - repeat split; trivial; try (intros H; now left);
      intros H; try discriminate H; rewrite <- H in T; discriminate T.
Qed.

(** X10.  A list [normalize_port_pair_groups] returns is never empty,
    and normalizing it again returns it unchanged. *)
Theorem X10_port_pair_groups_renormalize (v : pyval) (l : list pyval) :
  normalize_port_pair_groups v = Return l ->
  l <> [] /\ normalize_port_pair_groups (PyList l) = Return l.
Proof.
  unfold normalize_port_pair_groups. intros H.
  destruct (convert_to_list v) as [|x xs]; [discriminate H|].
  injection H as <-. split; [discriminate | reflexivity].
Qed.

Lemma X10_port_pair_groups_renormalize_witness :
  normalize_port_pair_groups (PyList [PyStr "group-1"]) =
  Return [PyStr "group-1"].
Proof.
  apply (X10_port_pair_groups_renormalize (PyStr "group-1")). reflexivity.
Defined.

(** ** The attribute map *)

Lemma dict_get_In {A} (k : string) (v : A) (d : list (string * A)) :
  dict_get k d = Some v -> In (k, v) d.
Proof.
  induction d as [|[k' v'] d IH]; simpl; [discriminate|].
  destruct (k' =? k)%string eqn:E.
  - intros H. injection H as <-. apply String.eqb_eq in E. subst. now left.
  - intros H. right. now apply IH.
Qed.

Lemma attribute_of_In (c a : string) (attr : attribute) :
  attribute_of c a = Some attr -> In (c, a, attr) all_attributes.
Proof.
  unfold attribute_of, all_attributes.
  destruct (dict_get c RESOURCE_ATTRIBUTE_MAP) as [attrs|] eqn:C;
    [|discriminate].
  intros H. apply dict_get_In in C, H. apply in_flat_map.
  exists (c, attrs). split; trivial.
  apply in_map_iff. now exists (a, attr).
Qed.

(** Case analysis over the attributes of the map. *)
Ltac each_attribute H :=
  apply attribute_of_In in H; simpl in H;
  repeat (destruct H as [H|H];
          [injection H as <- <- <-|]);
  [..|contradiction].

(** X11.  In every collection of the map, the primary key is the
    attribute [id] and no other; [id] can be given neither on creation
    nor on update, has no default and is validated as a UUID. *)
Theorem X11_primary_key_is_id (c a : string) (attr : attribute) :
  attribute_of c a = Some attr ->
  primary_key attr = (a =? "id")%string /\
  (exists id_attr,
     attribute_of c "id" = Some id_attr /\
     primary_key id_attr = true /\
     allow_post id_attr = false /\ allow_put id_attr = false /\
     default id_attr = None /\ validate id_attr = Some type_uuid).
Proof.
  intros H. each_attribute H;
    (split; [reflexivity|]; eexists; repeat split; reflexivity).
Qed.

Lemma X11_primary_key_is_id_witness :
  exists attr,
    attribute_of "port_chains" "chain_id" = Some attr /\
    primary_key attr = false.
Proof.
  eexists. split; [reflexivity|].
  apply (X11_primary_key_is_id "port_chains" "chain_id"). reflexivity.
Defined.

(** X12.  Every attribute of the map is visible; one that can be set on
    update can also be set on creation; one that cannot be set on
    creation has neither a default nor a converter; and the attribute
    required by policy is [tenant_id] and no other. *)
Theorem X12_attribute_flags (c a : string) (attr : attribute) :
  attribute_of c a = Some attr ->
  is_visible attr = true /\
  implb (allow_put attr) (allow_post attr) = true /\
  (allow_post attr = false -> default attr = None /\ convert_to attr = None) /\
  required_by_policy attr = (a =? "tenant_id")%string.
Proof.
  intros H. each_attribute H;
    (split; [reflexivity|]; split; [reflexivity|]; split; [|reflexivity];
     intros F; try discriminate F; split; reflexivity).
Qed.

Lemma X12_attribute_flags_witness :
  exists attr,
    attribute_of "port_pair_groups" "group_id" = Some attr /\
    is_visible attr = true /\ default attr = None /\ convert_to attr = None.
Proof.
  eexists. split; [reflexivity|].
  destruct (X12_attribute_flags "port_pair_groups" "group_id" _ eq_refl)
    as (V & _ & D & _).
  split; [exact V|]. now apply D.
Defined.

(** X13.  Every attribute of the map validated as a dict can be set on
    creation only, has the default [None] and has a converter which
    turns [None] and the empty dict into exactly the dict of the
    defaults that the rule declares for its keys. *)
Theorem X13_dict_attribute_defaults
    (host : HostLib) (c a : string) (attr : attribute)
    (specs : list (string * key_spec rule)) :
  attribute_of c a = Some attr ->
  validate attr = Some (type_dict specs) ->
  allow_post attr = true /\ allow_put attr = false /\
  default attr = Some PyNone /\
  convert (convert_to attr) PyNone = Return (key_defaults specs) /\
  convert (convert_to attr) (PyDict []) = Return (key_defaults specs).
Proof.
  intros H V. each_attribute H; try discriminate V;
    injection V as <-; repeat split; reflexivity.
Qed.

Lemma X13_dict_attribute_defaults_witness :
  exists attr,
    attribute_of "port_pairs" "service_function_parameters" = Some attr /\
    convert (host := plain_host) (convert_to attr) PyNone =
    Return (PyDict [("correlation", PyNone); ("weight", PyInt 1)]).
Proof.
  eexists. split; [reflexivity|].
  refine (proj1 (proj2 (proj2 (proj2
            (X13_dict_attribute_defaults plain_host
               "port_pairs" "service_function_parameters" _ _
               eq_refl eq_refl))))).
Defined.

(** X14.  The collections of the map are those of the three resource
    kinds.  For each kind the plugin interface declares the five
    operations named after it as abstract methods, the abstract methods
    are no others, and there is a quota option [quota_<kind>] with a
    positive default. *)
Theorem X14_interface_covers_the_map :
  map fst RESOURCE_ATTRIBUTE_MAP =
    [plural PortPair; plural PortChain; plural PortPairGroup] /\
  (forall k, incl (operations_of k) abstract_methods) /\
  incl abstract_methods
       (operations_of PortPair ++ operations_of PortChain ++
        operations_of PortPairGroup)%list /\
  map opt_name sfc_quota_opts =
    map (fun k => "quota_" ++ singular k)
        [PortChain; PortPairGroup; PortPair] /\
  Forall (fun o => 0 < opt_default o) sfc_quota_opts.
Proof.
  split; [reflexivity|]. split; [|split; [|split; [reflexivity|]]].
  - intros [] m H; simpl in H;
      repeat (destruct H as [<-|H]; [simpl; tauto|]); contradiction.
  - intros m H. simpl in H.
    repeat (destruct H as [<-|H]; [simpl; tauto|]). contradiction.
  - repeat constructor.
Qed.

(** ** Checking the parameter attributes *)

(** X15.  Every [chain_parameters] dict of a port chain whose
    [correlation] is anything but "mpls" is rejected: the converter
    leaves the given correlation in place and the allowed values of the
    key are ["mpls"] alone. *)
Theorem X15_chain_correlation_must_be_mpls
    (host : HostLib) (a : attribute)
    (d : list (string * pyval)) (v : pyval) :
  attribute_of "port_chains" "chain_parameters" = Some a ->
  dict_get "correlation" d = Some v ->
  v <> PyStr "mpls" ->
  accepted (check_attribute a (PyDict d)) = false.
Proof.
  intros A G N. injection A as <-.
  assert (V : validate_values v [PyStr "mpls"] =
              Some (Msg "'%(data)s' is not in %(valid_values)s"
                        [v; PyList [PyStr "mpls"]])).
  { unfold validate_values, in_list. simpl. rewrite orb_false_r.
    destruct (Py.eqb v (PyStr "mpls")) eqn:E; trivial.
    apply eqb_str_r in E. contradiction. }
  assert (T : truthy (PyDict d) = true) by (destruct d; [discriminate G | reflexivity]).
  unfold check_attribute. cbn [convert convert_to call validate].
  rewrite normalize_chain_parameters_outcome. unfold chain_parameters_outcome.
  rewrite T. cbn [negb]. rewrite bind_return.
  assert (G' : dict_get "correlation" (d ++ missing_defaults d) = Some v)
    by (rewrite dict_get_app; now rewrite G).
  cbn [run_rule dict_get String.eqb Ascii.eqb Bool.eqb].
  rewrite G'. cbn [ks_convert_to ks_rule convert bind run_rule].
  now rewrite V.
Qed.

Lemma X15_chain_correlation_must_be_mpls_witness :
  exists a,
    attribute_of "port_chains" "chain_parameters" = Some a /\
    accepted (check_attribute (host := plain_host) a
                (PyDict [("correlation", PyStr "nsh")])) = false.
Proof.
  eexists. split; [reflexivity|].
  apply (X15_chain_correlation_must_be_mpls plain_host _
           [("correlation", PyStr "nsh")] (PyStr "nsh")).
  - reflexivity.
  - reflexivity.
  - discriminate.
Defined.

(** X16.  Checking the [port_pair_group_parameters] attribute of a
    payload whose only key is [lb_fields] gives exactly the outcome of
    [validate_list_of_allowed_values] on its value with the eight
    supported fields; when the attribute is null or empty, the check
    accepts it. *)
Theorem X16_ppg_parameters_check
    (host : HostLib) (a : attribute) (v : pyval) :
  attribute_of "port_pair_groups" "port_pair_group_parameters" = Some a ->
  check_attribute a (PyDict [("lb_fields", v)]) =
    validate_list_of_allowed_values v SUPPORTED_LB_FIELDS /\
  check_attribute a PyNone = Return None /\
  check_attribute a (PyDict []) = Return None.
Proof.
  intros A. injection A as <-. split; [|split; reflexivity].
  unfold check_attribute. cbn [convert convert_to call validate].
  change (normalize_ppg_parameters (PyDict [("lb_fields", v)]))
    with (PyDict [("lb_fields", v)]).
  rewrite bind_return.
  cbn [run_rule dict_get String.eqb Ascii.eqb Bool.eqb
       ks_convert_to ks_rule convert bind].
  destruct (validate_list_of_allowed_values v SUPPORTED_LB_FIELDS)
    as [[m|]|e]; reflexivity.
Qed.

Lemma X16_ppg_parameters_check_witness :
  exists a,
    attribute_of "port_pair_groups" "port_pair_group_parameters" = Some a /\
    check_attribute (host := plain_host) a
      (PyDict [("lb_fields", PyList [PyStr "ip_src"; PyStr "vlan"])]) =
    Return (Some (Msg "Illegal values in a list: %s" [PyStr "vlan"])).
Proof.
  eexists. split; [reflexivity|].
  rewrite (proj1 (X16_ppg_parameters_check plain_host _
                    (PyList [PyStr "ip_src"; PyStr "vlan"]) eq_refl)).
  reflexivity.
Defined.

(** ** The descriptor *)

(** Only version "2.0" gets the attribute map; the plugin base reports
    the alias of the extension as its name and type. *)
Lemma get_extended_resources_versions (version : pyval) :
  (get_extended_resources version = RESOURCE_ATTRIBUTE_MAP <->
   version = PyStr "2.0") /\
  (get_extended_resources version = [] <-> version <> PyStr "2.0") /\
  get_plugin_name = get_alias /\ get_plugin_type = get_alias.
Proof.
  unfold get_extended_resources.
  destruct (Py.eqb version (PyStr "2.0")) eqn:E.
  - apply eqb_str_r in E. subst. repeat split; trivial; try discriminate.
    intros H. now contradiction H.
  - assert (N : version <> PyStr "2.0").
    { intros ->. discriminate E. }
    repeat split; trivial; try discriminate. intros H. contradiction.
Qed.
